(** * Portfolio Manager evaluation suite: dataset builder, API client and
      response collector

    A shallow embedding of [evaluation/portfolio_evaluator.py]:
    - [PortfolioManagerApiClient.send_chat_query] and [health_check],
    - [PortfolioManagerEvaluator.create_test_dataset],
    - [PortfolioManagerEvaluator.collect_ai_responses].

    Python dictionaries are association lists in insertion order, JSON Lines
    files are lists of rows stored in a finite map from paths to contents,
    and the effects of the code (files, the HTTP session, the clock,
    exceptions) are threaded through a state-and-exception monad. *)

From Stdlib Require Import ZArith Lia.
From stdpp Require Import base option list strings pretty gmap.

Local Open Scope Z_scope.

(** ** JSON values and Python dictionaries *)

(** What [json] and [jsonlines] read and write.  Numbers occurring in the
    modelled code are integers. *)
#[local] Unset Elimination Schemes.
Inductive json : Type :=
| JNull
| JBool (b : bool)
| JInt (n : Z)
| JStr (s : string)
| JList (l : list json)
| JDict (d : list (string * json)).

#[local] Set Elimination Schemes.

(** A [dict] with string keys, in insertion order. *)
Abbreviation dict := (list (string * json)).

Module Dict.

(** [d.get(k)] *)
Fixpoint get (d : dict) (k : string) : option json :=
  match d with
  | [] => None
  | (k', v) :: d' => if String.eqb k' k then Some v else get d' k
  end.

(** [k in d] *)
Definition contains (d : dict) (k : string) : bool :=
  match get d k with Some _ => true | None => false end.

(** [d[k] = v]: an existing key keeps its position, a new key goes last. *)
Fixpoint set (d : dict) (k : string) (v : json) : dict :=
  match d with
  | [] => [(k, v)]
  | (k', v') :: d' =>
      if String.eqb k' k then (k', v) :: d' else (k', v') :: set d' k v
  end.

(** [d.get(k, default)] *)
Definition get_default (d : dict) (k : string) (default : json) : json :=
  match get d k with Some v => v | None => default end.

(** [list(d.keys())] *)
Definition keys (d : dict) : list string := d.*1.

(** [d.copy()]: a shallow copy.  Values are immutable here, so the copy is
    the dictionary itself; what matters is that later assignments to the
    copy leave the original row untouched, which state passing gives. *)
Definition copy (d : dict) : dict := d.

End Dict.

(** ** [repr] of a string *)

Module PyRepr.

Definition quote : Ascii.ascii := Ascii.ascii_of_nat 39.
Definition double_quote : Ascii.ascii := Ascii.ascii_of_nat 34.
Definition backslash : Ascii.ascii := Ascii.ascii_of_nat 92.

(** [c in s] *)
Fixpoint has (c : Ascii.ascii) (s : string) : bool :=
  match s with
  | EmptyString => false
  | String a s' => Ascii.eqb a c || has c s'
  end.

Definition hex_digit (n : N) : Ascii.ascii :=
  match String.get (N.to_nat n) "0123456789abcdef" with
  | Some c => c
  | None => Ascii.zero
  end.

(** How [repr] shows one character inside the quotes [q].  The characters
    of a string are code points up to 255; those that are not printable
    (the control characters, 127 to 160 and 173) are shown in hexadecimal. *)
Definition escape (q c : Ascii.ascii) : string :=
  let n := Ascii.N_of_ascii c in
  if Ascii.eqb c q || Ascii.eqb c backslash then
    String backslash (String c EmptyString)
  else if (n =? 9)%N then String backslash "t"
  else if (n =? 10)%N then String backslash "n"
  else if (n =? 13)%N then String backslash "r"
  else if (n <? 32)%N || ((127 <=? n)%N && (n <=? 160)%N) || (n =? 173)%N then
    String backslash
      (String.append "x"
         (String (hex_digit (n / 16)) (String (hex_digit (n mod 16)) EmptyString)))
  else String c EmptyString.

Fixpoint escape_all (q : Ascii.ascii) (s : string) : string :=
  match s with
  | EmptyString => EmptyString
  | String c s' => String.append (escape q c) (escape_all q s')
  end.

(** [repr(s)]: single quotes, unless [s] has a single quote and no double
    quote. *)
Definition repr (s : string) : string :=
  let q := if has quote s && negb (has double_quote s) then double_quote else quote in
  String q (String.append (escape_all q s) (String q EmptyString)).

End PyRepr.

(** ** Exceptions *)

(** An instance of Python's [Exception].  [exc_path] lists the class of the
    instance followed by its base classes, up to but excluding [Exception]
    itself: [[]] is a plain [Exception(...)], [["KeyError"; "LookupError"]]
    is a [KeyError].  [exc_str] is [str(ex)].  Signals deriving from
    [BaseException] only (keyboard interrupt, a cancelled coroutine,
    interpreter exit) are not errors of a call and are outside this type. *)
Record PyExc : Type := mkExc { exc_path : list string; exc_str : string }.

(** [isinstance(ex, C)] for a class named [C], which is also what decides
    whether [except C] handles [ex]. *)
Definition isinstance (ex : PyExc) (C : string) : bool :=
  bool_decide (C ∈ exc_path ex ++ ["Exception"; "BaseException"; "object"]).

(** [Exception(msg)] *)
Definition Exception (msg : string) : PyExc := mkExc [] msg.

(** [repr] of a string key, as [str(KeyError(k))] shows it. *)
Definition repr_key (k : string) : string := PyRepr.repr k.

Definition KeyError (k : string) : PyExc :=
  mkExc ["KeyError"; "LookupError"] (repr_key k).

Definition AttributeError (msg : string) : PyExc :=
  mkExc ["AttributeError"] msg.

(** [str] of the [OSError] shows the file name through [repr]. *)
Definition FileNotFoundError (path : string) : PyExc :=
  mkExc ["FileNotFoundError"; "OSError"]
        ("[Errno 2] No such file or directory: " +:+ PyRepr.repr path).

(** The outcome of evaluating an expression or running a statement. *)
Inductive PyResult (A : Type) : Type :=
| Return (a : A)
| Raise (ex : PyExc).
Arguments Return {A} a.
Arguments Raise {A} ex.

(** [d[k]] *)
Definition getitem (d : dict) (k : string) : PyResult json :=
  match Dict.get d k with
  | Some v => Return v
  | None => Raise (KeyError k)
  end.

(** ** String helpers of the Python runtime used by the code *)

Module PyStr.

(** [c in chars] for a character [c]. *)
Fixpoint mem (c : Ascii.ascii) (chars : string) : bool :=
  match chars with
  | EmptyString => false
  | String a chars' => Ascii.eqb a c || mem c chars'
  end.

(** [s.rstrip(chars)]: drops the longest suffix made of characters of
    [chars]. *)
Fixpoint rstrip (chars : string) (s : string) : string :=
  match s with
  | EmptyString => EmptyString
  | String a s' =>
      match rstrip chars s' with
      | EmptyString => if mem a chars then EmptyString else String a EmptyString
      | r => String a r
      end
  end.

(** [s.replace(old, new)] for a non-empty [old]: occurrences are replaced
    from left to right without overlap.  [skip] counts the characters of a
    match just replaced that are still to be dropped. *)
Fixpoint replace_from (old new : string) (skip : nat) (s : string) : string :=
  match s with
  | EmptyString => EmptyString
  | String a s' =>
      match skip with
      | S k => replace_from old new k s'
      | O =>
          if String.prefix old s
          then new +:+ replace_from old new (String.length old - 1) s'
          else String a (replace_from old new O s')
      end
  end.

Definition replace (s old new : string) : string := replace_from old new O s.

(** [f"{n:02d}"]: decimal, padded with zeros on the left to width 2. *)
Definition format_02d (n : Z) : string :=
  let s := pretty n in
  if (String.length s <? 2)%nat then "0" +:+ s else s.

End PyStr.

(** ** The world the code runs in *)

Inductive Method : Type := GET | POST.

(** A request handed to the [aiohttp] session: the method, the URL and the
    [json=], [headers=] and [timeout=] keyword arguments, the last one in
    seconds when it is given. *)
Record Request : Type := mkRequestWith {
  req_method : Method;
  req_url : string;
  req_json : option json;
  req_headers : list (string * string);
  req_timeout : option Z
}.

(** A request made without a [timeout=] argument. *)
Definition mkRequest (method : Method) (url : string) (body : option json)
    (headers : list (string * string)) : Request :=
  mkRequestWith method url body headers None.

(** What the code reads of a response: [response.status],
    [await response.text()] and [await response.json()].  Reading the body
    can itself fail, and the parsed body is whatever JSON value the service
    sent: the annotation [Dict[str, Any]] of [send_chat_query] is not
    checked. *)
Record Response : Type := mkResponse {
  resp_status : Z;
  resp_text : PyResult string;
  resp_json : PyResult json
}.

(** The surroundings of a run, which the code does not control: how the
    remote service and the network answer the [n]-th request of the run, and
    what [datetime.utcnow().isoformat()] shows at the [n]-th reading of the
    clock. *)
Record Env : Type := mkEnv {
  server : nat → Request → PyResult Response;
  utcnow_isoformat : nat → string
}.

(** The mutable state: JSON Lines files (path to rows), the requests sent so
    far and the number of clock readings so far. *)
Record World : Type := mkWorld {
  fs : gmap string (list dict);
  http_log : list Request;
  clock_reads : nat
}.

Definition set_fs (f : gmap string (list dict) → gmap string (list dict))
    (w : World) : World :=
  mkWorld (f (fs w)) (http_log w) (clock_reads w).

(** ** A monad for state and exceptions *)

Definition Py (A : Type) : Type := World → PyResult A * World.

Definition ret {A} (a : A) : Py A := λ w, (Return a, w).

Definition raise {A} (ex : PyExc) : Py A := λ w, (Raise ex, w).

Definition bind {A B} (m : Py A) (k : A → Py B) : Py B :=
  λ w, match m w with
       | (Return a, w') => k a w'
       | (Raise ex, w') => (Raise ex, w')
       end.

(** An expression without effects on the world. *)
Definition lift {A} (r : PyResult A) : Py A := λ w, (r, w).

(** [try: body / except Exception as ex: handler(ex)].  Every [PyExc] is an
    [Exception], so the handler takes all of them, as a bare [except:]
    does; what the body did to the world before raising stays done. *)
Definition try_except {A} (body : Py A) (handler : PyExc → Py A) : Py A :=
  λ w, match body w with
       | (Return a, w') => (Return a, w')
       | (Raise ex, w') => handler ex w'
       end.

Notation "'do' x <- m ; k" := (bind m (λ x, k))
  (at level 10, x name, m at level 100, k at level 200,
   format "'[v' 'do'  x  <-  m ;  '/' k ']'").

Section Run.

Variable env : Env.

(** ** Primitive effects *)

(** [session.get(...)] / [session.post(...)]: one outbound request, answered
    by the surroundings. *)
Definition http_request (req : Request) : Py Response :=
  λ w, (server env (length (http_log w)) req,
        mkWorld (fs w) (http_log w ++ [req]) (clock_reads w)).

(** [datetime.utcnow().isoformat()] *)
Definition utcnow : Py string :=
  λ w, (Return (utcnow_isoformat env (clock_reads w)),
        mkWorld (fs w) (http_log w) (S (clock_reads w))).

(** [jsonlines.open(path, mode='r')] followed by reading every row. *)
Definition read_jsonl (path : string) : Py (list dict) :=
  λ w, match fs w !! path with
       | Some rows => (Return rows, w)
       | None => (Raise (FileNotFoundError path), w)
       end.

(** [jsonlines.open(path, mode='w')]: the file is created or truncated. *)
Definition open_write (path : string) : Py unit :=
  λ w, (Return tt, set_fs (λ f, <[path := []]> f) w).

(** [writer.write(row)]: one more line at the end of the file. *)
Definition write_row (path : string) (row : dict) : Py unit :=
  λ w, (Return tt, set_fs (λ f, <[path := default [] (f !! path) ++ [row]]> f) w).

(** ** [PortfolioManagerApiClient] *)

(** [session] tells whether [self.session] holds a session ([true]) or is
    still [None]. *)
Record PortfolioManagerApiClient : Type := mkClient {
  base_url : string;
  session : bool
}.

(** [__init__] *)
Definition client_init (url : string) : PortfolioManagerApiClient :=
  mkClient (PyStr.rstrip "/" url) false.

(** [__aenter__] *)
Definition client_aenter (self : PortfolioManagerApiClient) : PortfolioManagerApiClient :=
  mkClient (base_url self) true.

Definition none_has_no_attribute (name : string) : PyExc :=
  AttributeError ("'NoneType' object has no attribute '" +:+ name +:+ "'").

Definition chat_query_url (self : PortfolioManagerApiClient) : string :=
  base_url self +:+ "/api/ai/chat/query".

Definition chat_query_payload (query : json) (account_id : Z) (thread_id : option Z) : dict :=
  [("query", query);
   ("accountId", JInt account_id);
   ("threadId", match thread_id with Some t => JInt t | None => JNull end)].

Definition chat_query_request (self : PortfolioManagerApiClient)
    (query : json) (account_id : Z) (thread_id : option Z) : Request :=
  mkRequest POST (chat_query_url self)
    (Some (JDict (chat_query_payload query account_id thread_id)))
    [("Content-Type", "application/json"); ("Accept", "application/json")].

(** The body of the [async with self.session.post(...) as response:] block
    of [send_chat_query]; it reads the response and touches nothing else. *)
Definition chat_query_response (response : Response) : PyResult json :=
  if negb (resp_status response =? 200) then
    match resp_text response with
    | Return error_text =>
        Raise (Exception ("API Error " +:+ pretty (resp_status response)
                          +:+ ": " +:+ error_text))
    | Raise ex => Raise ex
    end
  else
    resp_json response.

(** [send_chat_query]: the handler prints the error and raises it again. *)
Definition send_chat_query (self : PortfolioManagerApiClient)
    (query : json) (account_id : Z) (thread_id : option Z) : Py json :=
  try_except
    (if session self then
       do response <- http_request (chat_query_request self query account_id thread_id);
       lift (chat_query_response response)
     else raise (none_has_no_attribute "post"))
    (λ ex, raise ex).

Definition health_url (self : PortfolioManagerApiClient) : string :=
  base_url self +:+ "/api/ai/chat/health".

Definition health_request (self : PortfolioManagerApiClient) : Request :=
  mkRequest GET (health_url self) None [].

(** [health_check]: a bare [except:] turns every failure into [False]. *)
Definition health_check (self : PortfolioManagerApiClient) : Py bool :=
  try_except
    (if session self then
       do response <- http_request (health_request self);
       ret (resp_status response =? 200)
     else raise (none_has_no_attribute "get"))
    (λ _, ret false).

End Run.

(** ** [PortfolioManagerEvaluator.create_test_dataset] *)

Module Dataset.

Definition string_param (description : string) : json :=
  JDict [("type", JStr "string"); ("description", JStr description)].

Definition object_schema (properties : dict) (required : list string) : json :=
  JDict [("type", JStr "object");
         ("properties", JDict properties);
         ("required", JList (JStr <$> required))].

Definition tool (name description : string) (parameters : json) : json :=
  JDict [("name", JStr name); ("description", JStr description);
         ("parameters", parameters)].

(** The [tool_definitions] literal. *)
Definition tool_definitions : list json :=
  [ tool "PortfolioAnalysisTool"
      "Analyzes portfolio holdings for a specific date, calculating total value, asset allocation, and performance metrics"
      (object_schema
         [("valuationDate",
           string_param "Date for analysis (YYYY-MM-DD format or relative terms like 'today', 'yesterday')")]
         ["valuationDate"]);
    tool "PortfolioComparisonTool"
      "Compares portfolio performance between two different dates"
      (object_schema
         [("currentDate",
           string_param "Current date for comparison (YYYY-MM-DD or relative terms)");
          ("comparisonDate",
           string_param "Historical date to compare against (YYYY-MM-DD or relative terms)")]
         ["currentDate"; "comparisonDate"]);
    tool "MarketIntelligenceTool"
      "Provides market sentiment analysis and intelligence for specific securities"
      (object_schema
         [("symbol",
           string_param "Stock symbol to analyze (e.g., 'AAPL', 'MSFT', 'TSLA.L')")]
         ["symbol"]) ].

Definition scenario (query expected_tool : string) (expected_params : dict)
    (scenario_type : string) : dict :=
  [("query", JStr query);
   ("expected_tool", JStr expected_tool);
   ("expected_params", JDict expected_params);
   ("scenario_type", JStr scenario_type)].

Definition scenario_with_note (query expected_tool : string)
    (expected_params : dict) (scenario_type note : string) : dict :=
  scenario query expected_tool expected_params scenario_type ++ [("note", JStr note)].

(** The [test_scenarios] literal. *)
Definition test_scenarios : list dict :=
  [ scenario "How is my portfolio performing today?"
      "PortfolioAnalysisTool" [("valuationDate", JStr "today")]
      "portfolio_analysis";
    scenario "What was my portfolio value yesterday?"
      "PortfolioAnalysisTool" [("valuationDate", JStr "yesterday")]
      "portfolio_analysis";
    scenario "Can you analyze my portfolio for November 15, 2025?"
      "PortfolioAnalysisTool" [("valuationDate", JStr "2025-11-15")]
      "portfolio_analysis";
    scenario "How does my portfolio today compare to last week?"
      "PortfolioComparisonTool"
      [("currentDate", JStr "today"); ("comparisonDate", JStr "2025-11-11")]
      "portfolio_comparison";
    scenario "Compare my current portfolio performance to last month"
      "PortfolioComparisonTool"
      [("currentDate", JStr "today"); ("comparisonDate", JStr "2025-10-18")]
      "portfolio_comparison";
    scenario "Show me the difference between my portfolio on Nov 10 vs Nov 17, 2025"
      "PortfolioComparisonTool"
      [("currentDate", JStr "2025-11-17"); ("comparisonDate", JStr "2025-11-10")]
      "portfolio_comparison";
    scenario "What's the market sentiment for Apple stock?"
      "MarketIntelligenceTool" [("symbol", JStr "AAPL")]
      "market_intelligence";
    scenario "Can you give me intel on Tesla's market situation?"
      "MarketIntelligenceTool" [("symbol", JStr "TSLA")]
      "market_intelligence";
    scenario "How does the market feel about GEN.L right now?"
      "MarketIntelligenceTool" [("symbol", JStr "GEN.L")]
      "market_intelligence";
    scenario_with_note
      "What's my total portfolio value and how is MSFT doing in the market?"
      "PortfolioAnalysisTool" [("valuationDate", JStr "today")]
      "multi_intent"
      "Should trigger both PortfolioAnalysisTool and MarketIntelligenceTool";
    scenario_with_note
      "I want to see how my investments have changed and also check sentiment for Amazon"
      "PortfolioComparisonTool"
      [("currentDate", JStr "today"); ("comparisonDate", JStr "yesterday")]
      "multi_intent"
      "Should trigger PortfolioComparisonTool and MarketIntelligenceTool" ].

(** [f"test_{i+1:02d}"] *)
Definition scenario_id (i : nat) : string :=
  "test_" +:+ PyStr.format_02d (Z.of_nat i + 1).

(** The body of the [for i, scenario in enumerate(...)] loop up to the
    [writer.write]: the row built from [scenario].  The items of the dict
    display are evaluated in the order written. *)
Definition make_row (tool_defs : list json) (i : nat) (scenario : dict) : PyResult dict :=
  match getitem scenario "query" with
  | Raise ex => Raise ex
  | Return query =>
  match getitem scenario "scenario_type" with
  | Raise ex => Raise ex
  | Return scenario_type =>
  match getitem scenario "expected_tool" with
  | Raise ex => Raise ex
  | Return expected_tool =>
  match getitem scenario "expected_params" with
  | Raise ex => Raise ex
  | Return expected_params =>
      let row := [("query", query);
                  ("tool_definitions", JList tool_defs);
                  ("scenario_id", JStr (scenario_id i));
                  ("scenario_type", scenario_type);
                  ("expected_tool", expected_tool);
                  ("expected_params", expected_params)] in
      match Dict.get scenario "note" with
      | Some note => Return (Dict.set row "notes" note)
      | None => Return row
      end
  end end end end.

(** The [for] loop writing the rows, [i] being the index that [enumerate]
    gives the head of [scenarios]. *)
Fixpoint write_rows (output_file : string) (tool_defs : list json)
    (i : nat) (scenarios : list dict) : Py unit :=
  match scenarios with
  | [] => ret tt
  | scenario :: rest =>
      do row <- lift (make_row tool_defs i scenario);
      do _ <- write_row output_file row;
      write_rows output_file tool_defs (S i) rest
  end.

(** [serialize]: the [with jsonlines.open(...)] block, for any tool
    definitions and scenarios. *)
Definition write_dataset (output_file : string) (tool_defs : list json)
    (scenarios : list dict) : Py unit :=
  do _ <- open_write output_file;
  write_rows output_file tool_defs 0 scenarios.

Definition create_test_dataset (output_file : string) : Py string :=
  do _ <- write_dataset output_file tool_definitions test_scenarios;
  ret output_file.

End Dataset.

(** ** [PortfolioManagerEvaluator.collect_ai_responses] *)

Module Collector.

Section Collect.

Variable env : Env.

(** The record appended when the call succeeded. *)
Definition enrich_success (scenario api_response : dict) (timestamp : string) : dict :=
  let enriched_scenario := Dict.copy scenario in
  let enriched_scenario :=
    Dict.set enriched_scenario "response"
      (Dict.get_default api_response "response" (JStr "No response")) in
  let enriched_scenario := Dict.set enriched_scenario "tool_calls" (JList []) in
  let enriched_scenario :=
    Dict.set enriched_scenario "api_response_full" (JDict api_response) in
  Dict.set enriched_scenario "timestamp" (JStr timestamp).

(** The record appended by the [except Exception as ex] handler. *)
Definition enrich_error (scenario : dict) (ex : PyExc) (timestamp : string) : dict :=
  let error_scenario := Dict.copy scenario in
  let error_scenario :=
    Dict.set error_scenario "response" (JStr ("Error: " +:+ exc_str ex)) in
  let error_scenario := Dict.set error_scenario "tool_calls" (JList []) in
  let error_scenario := Dict.set error_scenario "error" (JStr (exc_str ex)) in
  Dict.set error_scenario "timestamp" (JStr timestamp).

(** The name of the type of a JSON value once parsed. *)
Definition type_name (value : json) : string :=
  match value with
  | JNull => "NoneType"
  | JBool _ => "bool"
  | JInt _ => "int"
  | JStr _ => "str"
  | JList _ => "list"
  | JDict _ => "dict"
  end.

(** Looking up the method [get] of [api_response]: only a dictionary has
    one. *)
Definition get_method (api_response : json) : PyResult dict :=
  match api_response with
  | JDict payload => Return payload
  | other =>
      Raise (AttributeError ("'" +:+ type_name other
                             +:+ "' object has no attribute 'get'"))
  end.

(** The [try]/[except] statement of the loop body.  The first use of the
    payload is [api_response.get(...)], before the clock is read.
    [asyncio.sleep(0.5)] only lets time pass. *)
Definition process_scenario (api_client : PortfolioManagerApiClient)
    (account_id : Z) (scenario : dict) (enriched_data : list dict) : Py (list dict) :=
  try_except
    (do query <- lift (getitem scenario "query");
     do api_response <- send_chat_query env api_client query account_id None;
     do payload <- lift (get_method api_response);
     do timestamp <- utcnow env;
     ret (enriched_data ++ [enrich_success scenario payload timestamp]))
    (λ ex,
     do timestamp <- utcnow env;
     ret (enriched_data ++ [enrich_error scenario ex timestamp])).

(** The [for i, scenario in enumerate(test_data, 1)] loop.  The progress
    line printed first evaluates [scenario['scenario_type']] outside the
    [try]. *)
Fixpoint collect_loop (api_client : PortfolioManagerApiClient) (account_id : Z)
    (test_data : list dict) (enriched_data : list dict) : Py (list dict) :=
  match test_data with
  | [] => ret enriched_data
  | scenario :: rest =>
      do _ <- lift (getitem scenario "scenario_type");
      do enriched_data <- process_scenario api_client account_id scenario enriched_data;
      collect_loop api_client account_id rest enriched_data
  end.

(** [for row in enriched_data: writer.write(row)] *)
Fixpoint write_all (path : string) (rows : list dict) : Py unit :=
  match rows with
  | [] => ret tt
  | row :: rest => do _ <- write_row path row; write_all path rest
  end.

Definition not_healthy (api_base_url : string) : PyExc :=
  Exception ("Portfolio Manager API at " +:+ api_base_url
             +:+ " is not healthy. Please ensure it's running.").

Definition enriched_file_of (test_dataset_file : string) : string :=
  PyStr.replace test_dataset_file ".jsonl" "_with_responses.jsonl".

Definition collect_ai_responses (test_dataset_file api_base_url : string)
    (account_id : Z) : Py string :=
  do test_data <- read_jsonl test_dataset_file;
  let api_client := client_aenter (client_init api_base_url) in
  do healthy <- health_check env api_client;
  if negb healthy then raise (not_healthy api_base_url)
  else
    do enriched_data <- collect_loop api_client account_id test_data [];
    let enriched_file := enriched_file_of test_dataset_file in
    do _ <- open_write enriched_file;
    do _ <- write_all enriched_file enriched_data;
    ret enriched_file.

End Collect.

End Collector.


(** ** [PortfolioManagerEvaluator.__init__] *)

Module Evaluator.

(** The truth value of an optional string: [None] and the empty string are
    false. *)
Definition truthy (s : option string) : bool :=
  match s with
  | Some (String _ _) => true
  | _ => false
  end.

(** [a or b] *)
Definition or_else (a b : option string) : option string :=
  if truthy a then a else b.

(** [os.getenv(name)], the environment of the process being a finite map. *)
Definition getenv (environ : gmap string string) (name : string) : option string :=
  environ !! name.

(** [os.getenv(name, default)] *)
Definition getenv_default (environ : gmap string string)
    (name default : string) : string :=
  match environ !! name with
  | Some value => value
  | None => default
  end.

Definition ValueError (msg : string) : PyExc := mkExc ["ValueError"] msg.

Definition configuration_required : PyExc :=
  ValueError ("Azure OpenAI configuration required. Set AZURE_OPENAI_ENDPOINT and "
              +:+ "AZURE_OPENAI_DEPLOYMENT environment variables or pass them explicitly.").

(** [AzureOpenAIModelConfiguration(...)], a typed dictionary. *)
Definition model_configuration (azure_deployment azure_endpoint : string) : dict :=
  [("azure_deployment", JStr azure_deployment);
   ("azure_endpoint", JStr azure_endpoint);
   ("api_version", JStr "2025-04-01-preview")].

(** What [__init__] keeps of the configuration.  The credential and the
    evaluators are objects of the evaluation SDK. *)
Record PortfolioManagerEvaluator : Type := mkEvaluator {
  azure_endpoint : string;
  azure_deployment : string;
  model_config : dict
}.

Section Init.

Variable environ : gmap string string.

(** [DefaultAzureCredential()] followed by [self._setup_evaluators()]: the
    constructors of the SDK, given the model configuration; they may
    raise. *)
Variable sdk_setup : dict → PyResult unit.

Definition init (endpoint deployment : option string)
    : PyResult PortfolioManagerEvaluator :=
  let endpoint := or_else endpoint (getenv environ "AZURE_OPENAI_ENDPOINT") in
  let deployment := or_else deployment (getenv environ "AZURE_OPENAI_DEPLOYMENT") in
  if negb (truthy endpoint) || negb (truthy deployment) then
    Raise configuration_required
  else
    let endpoint := default EmptyString endpoint in
    let deployment := default EmptyString deployment in
    let config := model_configuration deployment endpoint in
    match sdk_setup config with
    | Return _ => Return (mkEvaluator endpoint deployment config)
    | Raise ex => Raise ex
    end.

End Init.

End Evaluator.

(** ** [main] *)

Module Main.

Section Main.

Variable environ : gmap string string.
Variable sdk_setup : dict → PyResult unit.
Variable env : Env.

(** [int(s)] for a string [s]. *)
Variable int : string → PyResult Z.

(** [evaluator.run_evaluation(data_file, output_path)], which hands the
    enriched file to the evaluation SDK, and [evaluator.analyze_results],
    which prints its report. *)
Variable run_evaluation :
  Evaluator.PortfolioManagerEvaluator → string → string → Py json.
Variable analyze_results :
  Evaluator.PortfolioManagerEvaluator → json → Py unit.

(** [main]: the handler prints the error and hints, and raises the error
    again. *)
Definition main : Py unit :=
  try_except
    (do evaluator <- lift (Evaluator.init environ sdk_setup None None);
     do dataset_file <- Dataset.create_test_dataset "portfolio_test_dataset.jsonl";
     let api_url :=
       Evaluator.getenv_default environ "PORTFOLIO_API_URL" "http://localhost:5000" in
     do account_id <- lift (int (Evaluator.getenv_default environ "TEST_ACCOUNT_ID" "1"));
     do enriched_dataset <-
       Collector.collect_ai_responses env dataset_file api_url account_id;
     do results <- run_evaluation evaluator enriched_dataset "evaluation_results";
     do _ <- analyze_results evaluator results;
     ret tt)
    (λ ex, raise ex).

End Main.

End Main.

(** * Vocabulary of the statements *)

(** What the statements below say about rows, in terms of the definitions
    above. *)

Module Row.

(** The four keys the loop of [create_test_dataset] reads with
    [scenario[...]]. *)
Definition has_labels (scenario : dict) : bool :=
  Dict.contains scenario "query" && Dict.contains scenario "scenario_type"
  && Dict.contains scenario "expected_tool"
  && Dict.contains scenario "expected_params".

(** The six items every written row starts with. *)
Definition base (tool_defs : list json) (i : nat)
    (query scenario_type expected_tool expected_params : json) : dict :=
  [("query", query);
   ("tool_definitions", JList tool_defs);
   ("scenario_id", JStr (Dataset.scenario_id i));
   ("scenario_type", scenario_type);
   ("expected_tool", expected_tool);
   ("expected_params", expected_params)].

(** The item that follows them when the scenario has a note. *)
Definition note_item (scenario : dict) : dict :=
  match Dict.get scenario "note" with
  | Some note => [("notes", note)]
  | None => []
  end.

(** The rows of a dataset as the loop builds them, the first one at
    index [i]. *)
Definition rows_of (tool_defs : list json) (i : nat) (scenarios : list dict)
    : list (PyResult dict) :=
  imap (λ j scenario, Dataset.make_row tool_defs (i + j) scenario) scenarios.

(** The names declared by a list of tool definitions. *)
Definition declared_names (tool_defs : list json) : list string :=
  omap (λ td, match td with
              | JDict d => match Dict.get d "name" with
                           | Some (JStr name) => Some name
                           | _ => None
                           end
              | _ => None
              end) tool_defs.

(** Whether the row's [expected_tool] is a name its own [tool_definitions]
    declare. *)
Definition tool_declared (row : dict) : bool :=
  match Dict.get row "expected_tool", Dict.get row "tool_definitions" with
  | Some (JStr name), Some (JList tool_defs) =>
      bool_decide (name ∈ declared_names tool_defs)
  | _, _ => false
  end.

(** [scenario_id] of a written row, when it is a string. *)
Definition id_of (row : dict) : option string :=
  match Dict.get row "scenario_id" with
  | Some (JStr s) => Some s
  | _ => None
  end.

(** Whether the first [n] identifiers grow in the order of strings. *)
Definition ids_grow_upto (n : nat) : bool :=
  forallb (λ i, forallb (λ j, String.ltb (Dataset.scenario_id i) (Dataset.scenario_id j))
                        (seq (S i) (n - S i)))
          (seq 0 n).

End Row.

Module Run.

Section WithEnv.

Variable env : Env.

(** What [send_chat_query] gives when its request is the [n]-th of the
    run and the session is open: the answer of the surroundings, read by
    [chat_query_response]. *)
Definition query_result_at (self : PortfolioManagerApiClient) (n : nat)
    (query : json) (account_id : Z) (thread_id : option Z) : PyResult json :=
  match server env n (chat_query_request self query account_id thread_id) with
  | Return response => chat_query_response response
  | Raise ex => Raise ex
  end.

(** The record the loop of [collect_ai_responses] appends for [scenario]
    when the call gave [result] and the clock showed [timestamp]: the
    record of the success branch when the call returned a dictionary, the
    record of the handler when the call raised or returned something
    without a method [get]. *)
Definition record_for (scenario : dict) (result : PyResult json)
    (timestamp : string) : dict :=
  match result with
  | Return api_response =>
      match Collector.get_method api_response with
      | Return payload => Collector.enrich_success scenario payload timestamp
      | Raise ex => Collector.enrich_error scenario ex timestamp
      end
  | Raise ex => Collector.enrich_error scenario ex timestamp
  end.

(** The query a scenario is sent with. *)
Definition query_of (scenario : dict) : json :=
  default JNull (Dict.get scenario "query").

(** The request made for a scenario. *)
Definition request_of (self : PortfolioManagerApiClient) (account_id : Z)
    (scenario : dict) : Request :=
  chat_query_request self (query_of scenario) account_id None.

(** The record of the scenario that is processed when [n] requests have
    been sent and the clock has been read [k] times. *)
Definition record_at (self : PortfolioManagerApiClient) (account_id : Z)
    (n k : nat) (scenario : dict) : dict :=
  record_for scenario
    (query_result_at self n (query_of scenario) account_id None)
    (utcnow_isoformat env k).

End WithEnv.

(** A record derived from [scenario] by one of the two branches. *)
Definition enrichment_of (scenario record : dict) : Prop :=
  (∃ api_response timestamp,
     record = Collector.enrich_success scenario api_response timestamp)
  ∨ (∃ ex timestamp, record = Collector.enrich_error scenario ex timestamp).

(** The keys the collector assigns. *)
Definition enrichment_keys : list string :=
  ["response"; "tool_calls"; "api_response_full"; "timestamp"; "error"].

(** A row with the two keys the loop reads. *)
Definition is_scenario (row : dict) : bool :=
  Dict.contains row "query" && Dict.contains row "scenario_type".

(** A scenario that has not been through the collector: no [error] yet. *)
Definition is_fresh_scenario (row : dict) : bool :=
  is_scenario row && negb (Dict.contains row "error").

End Run.

(** Concrete surroundings on which the statements are exercised. *)
Module Sample.

Definition world0 : World := mkWorld ∅ [] 0.

Definition api_base_url : string := "http://localhost:5000".

Definition client : PortfolioManagerApiClient :=
  client_aenter (client_init api_base_url).

(** [aiohttp.ClientConnectorError], raised when nothing listens. *)
Definition connection_refused : PyExc :=
  mkExc ["ClientConnectorError"; "ClientOSError"; "ClientConnectionError";
         "ClientError"; "OSError"]
        "Cannot connect to host localhost:5000 ssl:default [Connect call failed ('127.0.0.1', 5000)]".

(** [json.JSONDecodeError], raised by [response.json()] on a body that is
    not JSON. *)
Definition json_decode_error : PyExc :=
  mkExc ["JSONDecodeError"; "ValueError"]
        "Expecting value: line 1 column 1 (char 0)".

Definition clock (n : nat) : string :=
  "2025-11-18T12:00:" +:+ PyStr.format_02d (Z.of_nat n).

(** Surroundings in which every request gets the answer [answer] gives. *)
Definition answering (answer : Request → PyResult Response) : Env :=
  mkEnv (λ _ req, answer req) clock.

Definition ok (payload : dict) : PyResult Response :=
  Return (mkResponse 200 (Return "OK") (Return (JDict payload))).

(** The mock of the specification: every call answers
    [{"response": "All good"}]. *)
Definition all_good : Env :=
  answering (λ _, ok [("response", JStr "All good")]).

(** A service that answers every request with status 500. *)
Definition failing : Env :=
  answering (λ _, Return (mkResponse 500 (Return "Internal Server Error")
                            (Raise json_decode_error))).

(** Nothing listens at the address. *)
Definition unreachable : Env := answering (λ _, Raise connection_refused).

(** Status 200 with a body that is not JSON. *)
Definition garbled : Env :=
  answering (λ _, Return (mkResponse 200 (Return "<html>") (Raise json_decode_error))).

(** A service that is healthy and answers every query with status 200 and
    the JSON value [value]. *)
Definition answering_value (value : json) : Env :=
  answering (λ req, match req_method req with
                    | GET => ok []
                    | POST => Return (mkResponse 200 (Return "OK") (Return value))
                    end).

(** The body is the JSON [null]. *)
Definition null_answers : Env := answering_value JNull.

(** The body is a JSON list. *)
Definition list_answers : Env := answering_value (JList [JStr "All good"]).

(** A service whose health endpoint answers and whose chat endpoint cannot
    be reached. *)
Definition healthy_but_deaf : Env :=
  answering (λ req, match req_method req with
                    | GET => ok []
                    | POST => Raise connection_refused
                    end).

(** A service that fails on the queries whose index in the run is in
    [failures] (the health check is request 0). *)
Definition failing_at (failures : list nat) : Env :=
  mkEnv (λ n _, if bool_decide (n ∈ failures)
                then Return (mkResponse 503 (Return "Service Unavailable")
                               (Raise json_decode_error))
                else ok [("response", JStr "All good")])
        clock.

Definition dataset_file : string := "portfolio_test_dataset.jsonl".

(** The first three rows of the built dataset, in a file. *)
Definition three_rows : list dict :=
  [ Row.base Dataset.tool_definitions 0
      (JStr "How is my portfolio performing today?") (JStr "portfolio_analysis")
      (JStr "PortfolioAnalysisTool") (JDict [("valuationDate", JStr "today")]);
    Row.base Dataset.tool_definitions 1
      (JStr "What was my portfolio value yesterday?") (JStr "portfolio_analysis")
      (JStr "PortfolioAnalysisTool") (JDict [("valuationDate", JStr "yesterday")]);
    Row.base Dataset.tool_definitions 2
      (JStr "Can you analyze my portfolio for November 15, 2025?")
      (JStr "portfolio_analysis")
      (JStr "PortfolioAnalysisTool") (JDict [("valuationDate", JStr "2025-11-15")]) ].

Definition world3 : World :=
  mkWorld {[ dataset_file := three_rows ]} [] 0.

End Sample.
(** More surroundings on which the statements are exercised. *)
Module Sample2.

(** A row that is not a scenario: it has no [scenario_type]. *)
Definition untyped_row : dict := [("query", JStr "Hello")].

(** A row without a [query]. *)
Definition mute_row : dict := [("scenario_type", JStr "portfolio_analysis")].

(** Three scenarios followed by a row without [scenario_type]. *)
Definition world_untyped : World :=
  mkWorld {[ Sample.dataset_file := Sample.three_rows ++ untyped_row :: [] ]} [] 0.

(** One row, without a [query]. *)
Definition world_mute : World :=
  mkWorld {[ Sample.dataset_file := [mute_row] ]} [] 0.

End Sample2.

Module Sample3.

(** A record left by an earlier run in which the call failed, read again
    as a row. *)
Definition failed_before : dict :=
  Collector.enrich_error
    (Row.base Dataset.tool_definitions 0
       (JStr "How is my portfolio performing today?") (JStr "portfolio_analysis")
       (JStr "PortfolioAnalysisTool") (JDict [("valuationDate", JStr "today")]))
    Sample.connection_refused (Sample.clock 0).

Definition world_retry : World :=
  mkWorld {[ Sample.dataset_file := [failed_before] ]} [] 0.

End Sample3.

Module Text.

(** Whether [old] occurs in [s] (Python's [old in s]). *)
Fixpoint occurs (old s : string) : bool :=
  String.prefix old s
  || match s with
     | EmptyString => false
     | String _ s' => occurs old s'
     end.

End Text.

Module Config.

(** An argument that is not given, or given empty. *)
Definition missing (arg : option string) : Prop :=
  arg = None ∨ arg = Some EmptyString.

(** The value a setting resolves to: the argument when it is given and not
    empty, otherwise the environment variable when it is set and not
    empty. *)
Definition resolves_to (arg var : option string) (value : string) : Prop :=
  value ≠ EmptyString
  ∧ (arg = Some value ∨ (missing arg ∧ var = Some value)).

(** A setting that resolves to nothing. *)
Definition unresolved (arg var : option string) : Prop :=
  missing arg ∧ missing var.

(** An environment with both settings, one of them overridden below by an
    argument. *)
Definition environ : gmap string string :=
  {[ "AZURE_OPENAI_ENDPOINT" := "https://example.openai.azure.com";
     "AZURE_OPENAI_DEPLOYMENT" := "gpt-4o" ]}.

(** Constructors of the SDK that succeed. *)
Definition sdk_ok (config : dict) : PyResult unit := Return tt.

(** [int] on the strings the samples use. *)
Definition int (s : string) : PyResult Z :=
  if String.eqb s "1" then Return 1
  else Raise (Evaluator.ValueError
                ("invalid literal for int() with base 10: " +:+ repr_key s)).

(** An evaluation that reports nothing. *)
Definition run_evaluation (evaluator : Evaluator.PortfolioManagerEvaluator)
    (data_file output_path : string) : Py json :=
  ret (JDict []).

Definition analyze_results (evaluator : Evaluator.PortfolioManagerEvaluator)
    (results : json) : Py unit :=
  ret tt.

End Config.

(** * Properties *)

(** ** The string helpers on the inputs the code gives them *)

Example rstrip_slash : PyStr.rstrip "/" "http://localhost:5000//" = "http://localhost:5000".
Proof. reflexivity. Qed.

Example replace_jsonl :
  PyStr.replace "portfolio_test_dataset.jsonl" ".jsonl" "_with_responses.jsonl"
  = "portfolio_test_dataset_with_responses.jsonl".
Proof. reflexivity. Qed.

Example format_02d_7 : PyStr.format_02d 7 = "07".
Proof. reflexivity. Qed.

Example format_02d_123 : PyStr.format_02d 123 = "123".
Proof. reflexivity. Qed.

Example repr_plain : PyRepr.repr "scenario_type" = "'scenario_type'".
Proof. reflexivity. Qed.

Example repr_single_quote :
  PyRepr.repr "it's"
  = String PyRepr.double_quote ("it's" +:+ String PyRepr.double_quote EmptyString).
Proof. reflexivity. Qed.

Example repr_both_quotes :
  PyRepr.repr ("it's " +:+ String PyRepr.double_quote "x")
  = "'it\'s " +:+ String PyRepr.double_quote "x'".
Proof. reflexivity. Qed.

Example repr_backslash : PyRepr.repr "C:\data" = "'C:\\data'".
Proof. reflexivity. Qed.

Example repr_newline :
  PyRepr.repr (String (Ascii.ascii_of_nat 10) "x") = "'\nx'".
Proof. reflexivity. Qed.

Example repr_delete :
  PyRepr.repr (String (Ascii.ascii_of_nat 127) EmptyString) = "'\x7f'".
Proof. reflexivity. Qed.

(** ** Dictionaries *)

Section DictFacts.

Implicit Types (d : dict) (k : string) (v : json).

Lemma get_set_eq d k v : Dict.get (Dict.set d k v) k = Some v.
Proof.
  induction d as [|[k' v'] d IH]; simpl.
  - by rewrite String.eqb_refl.
  - destruct (String.eqb k' k) eqn:E; simpl; by rewrite E.
Qed.

Lemma get_set_ne d k k' v : k ≠ k' → Dict.get (Dict.set d k v) k' = Dict.get d k'.
Proof.
  intros Hne. induction d as [|[k0 v0] d IH]; simpl.
  - destruct (String.eqb k k') eqn:E; [|done].
    by apply String.eqb_eq in E.
  - destruct (String.eqb k0 k) eqn:E; simpl.
    + apply String.eqb_eq in E as ->.
      destruct (String.eqb k k') eqn:E'; [|done].
      by apply String.eqb_eq in E'.
    + by rewrite IH.
Qed.

Lemma contains_true d k : Dict.contains d k = true ↔ is_Some (Dict.get d k).
Proof.
  unfold Dict.contains.
  destruct (Dict.get d k); split; intros H;
    first [done | by eexists | by destruct H].
Qed.

Lemma contains_false d k : Dict.contains d k = false ↔ Dict.get d k = None.
Proof. unfold Dict.contains. by destruct (Dict.get d k). Qed.

Lemma contains_set_eq d k v : Dict.contains (Dict.set d k v) k = true.
Proof. unfold Dict.contains. by rewrite get_set_eq. Qed.

Lemma contains_set_ne d k k' v :
  k ≠ k' → Dict.contains (Dict.set d k v) k' = Dict.contains d k'.
Proof. intros Hne. unfold Dict.contains. by rewrite get_set_ne. Qed.

(** Assigning to a key that is not there yet appends the item. *)
Lemma set_fresh d k v : Dict.get d k = None → Dict.set d k v = d ++ [(k, v)].
Proof.
  induction d as [|[k' v'] d IH]; simpl; [done|].
  destruct (String.eqb k' k); [done|]. intros H. by rewrite IH.
Qed.

Lemma getitem_Some d k v : Dict.get d k = Some v → getitem d k = Return v.
Proof. unfold getitem. by intros ->. Qed.

End DictFacts.

(** Rewriting with the look-ups of assigned dictionaries; the side
    conditions compare string literals. *)
Ltac dict_simpl :=
  repeat first
    [ rewrite get_set_eq
    | rewrite contains_set_eq
    | rewrite get_set_ne by (by intros [=])
    | rewrite contains_set_ne by (by intros [=]) ].

(** Unfolding the monad. *)
Ltac py_unfold := unfold bind, ret, raise, lift, try_except in *.

(** ** Files *)

Section FileFacts.

Implicit Types (w : World) (path : string) (rows : list dict).

Lemma set_fs_id w : set_fs (λ f, f) w = w.
Proof. by destruct w. Qed.

Lemma write_row_appends path row rows w :
  fs w !! path = Some rows →
  write_row path row w = (Return tt, set_fs (λ f, <[path := rows ++ [row]]> f) w).
Proof. intros H. unfold write_row, set_fs. by rewrite H. Qed.

Lemma write_all_appends path new rows w :
  fs w !! path = Some rows →
  Collector.write_all path new w
  = (Return tt, set_fs (λ f, <[path := rows ++ new]> f) w).
Proof.
  revert rows w. induction new as [|row new IH]; intros rows w H; simpl.
  - unfold ret. f_equal. rewrite app_nil_r. destruct w as [f l c].
    unfold set_fs; simpl in *. f_equal. by rewrite insert_id.
  - py_unfold. rewrite (write_row_appends _ _ rows) by done.
    rewrite (IH (rows ++ [row])).
    + destruct w as [f l c]. unfold set_fs; simpl.
      by rewrite insert_insert_eq, <- app_assoc.
    + simpl. by rewrite lookup_insert_eq.
Qed.

End FileFacts.

(** ** The dataset builder *)

Section DatasetFacts.

Implicit Types (w : World) (scenario : dict) (scenarios : list dict).

Lemma has_labels_inv scenario :
  Row.has_labels scenario = true →
  ∃ q st et ep,
    Dict.get scenario "query" = Some q
    ∧ Dict.get scenario "scenario_type" = Some st
    ∧ Dict.get scenario "expected_tool" = Some et
    ∧ Dict.get scenario "expected_params" = Some ep.
Proof.
  unfold Row.has_labels. rewrite !andb_true_iff, !contains_true.
  intros [[[[q ?] [st ?]] [et ?]] [ep ?]]. by exists q, st, et, ep.
Qed.

(** The row built from a scenario that has the four labels. *)
Lemma make_row_labelled tool_defs i scenario q st et ep :
  Dict.get scenario "query" = Some q →
  Dict.get scenario "scenario_type" = Some st →
  Dict.get scenario "expected_tool" = Some et →
  Dict.get scenario "expected_params" = Some ep →
  Dataset.make_row tool_defs i scenario
  = Return (Row.base tool_defs i q st et ep ++ Row.note_item scenario).
Proof.
  intros Hq Hst Het Hep. unfold Dataset.make_row, getitem, Row.note_item.
  rewrite Hq, Hst, Het, Hep.
  destruct (Dict.get scenario "note"); [done|]. by rewrite app_nil_r.
Qed.

Lemma make_row_total tool_defs i scenario :
  Row.has_labels scenario = true →
  ∃ row, Dataset.make_row tool_defs i scenario = Return row.
Proof.
  intros (q & st & et & ep & ? & ? & ? & ?)%has_labels_inv.
  eexists. by eapply make_row_labelled.
Qed.

Lemma write_rows_appends output_file tool_defs scenarios :
  Forall (λ s, Row.has_labels s = true) scenarios →
  ∀ i rows w,
    fs w !! output_file = Some rows →
    ∃ new,
      Dataset.write_rows output_file tool_defs i scenarios w
      = (Return tt, set_fs (λ f, <[output_file := rows ++ new]> f) w)
      ∧ Return <$> new = Row.rows_of tool_defs i scenarios.
Proof.
  induction 1 as [|scenario scenarios Hs _ IH]; intros i rows w Hfile.
  - exists []. split; [|done]. simpl. unfold ret. f_equal.
    rewrite app_nil_r. destruct w as [f l c]. unfold set_fs; simpl in *.
    f_equal. by rewrite insert_id.
  - destruct (make_row_total tool_defs i scenario Hs) as [row Hrow].
    destruct (IH (S i) (rows ++ [row])
                (set_fs (λ f, <[output_file := rows ++ [row]]> f) w))
      as (new & Hrun & Hnew).
    { simpl. by rewrite lookup_insert_eq. }
    exists (row :: new). split.
    + simpl. py_unfold. rewrite Hrow.
      rewrite (write_row_appends _ _ rows) by done. rewrite Hrun.
      destruct w as [f l c]. unfold set_fs; simpl.
      by rewrite insert_insert_eq, <- app_assoc.
    + unfold Row.rows_of in *. rewrite imap_cons, fmap_cons. f_equal.
      * by rewrite Nat.add_0_r.
      * rewrite Hnew. apply imap_ext. intros j s _. simpl. f_equal. lia.
Qed.

(** What [write_dataset] leaves in the file. *)
Lemma write_dataset_rows output_file tool_defs scenarios w :
  Forall (λ s, Row.has_labels s = true) scenarios →
  ∃ rows,
    Dataset.write_dataset output_file tool_defs scenarios w
    = (Return tt, set_fs (λ f, <[output_file := rows]> f) w)
    ∧ Return <$> rows = Row.rows_of tool_defs 0 scenarios.
Proof.
  intros Hs. unfold Dataset.write_dataset, open_write. py_unfold.
  destruct (write_rows_appends output_file tool_defs scenarios Hs 0 []
              (set_fs (λ f, <[output_file := []]> f) w))
    as (rows & Hrun & Hrows).
  { simpl. by rewrite lookup_insert_eq. }
  exists rows. split; [|done]. rewrite Hrun.
  destruct w as [f l c]. unfold set_fs; simpl. by rewrite insert_insert_eq.
Qed.

Lemma rows_of_lookup tool_defs rows scenarios i scenario :
  Return <$> rows = Row.rows_of tool_defs 0 scenarios →
  scenarios !! i = Some scenario →
  ∃ row, rows !! i = Some row
         ∧ Dataset.make_row tool_defs i scenario = Return row.
Proof.
  intros Hrows Hi.
  assert ((Return <$> rows) !! i = Some (Dataset.make_row tool_defs i scenario)) as H.
  { rewrite Hrows. unfold Row.rows_of. by rewrite list_lookup_imap, Hi. }
  rewrite list_lookup_fmap in H.
  destruct (rows !! i) as [row|]; [|done].
  exists row. split; [done|]. simpl in H. congruence.
Qed.

(** The row at index [i], for a scenario that has the four labels. *)
Lemma rows_of_lookup_labelled tool_defs rows scenarios i scenario :
  Return <$> rows = Row.rows_of tool_defs 0 scenarios →
  scenarios !! i = Some scenario →
  Row.has_labels scenario = true →
  ∃ q st et ep,
    Dict.get scenario "query" = Some q
    ∧ Dict.get scenario "scenario_type" = Some st
    ∧ Dict.get scenario "expected_tool" = Some et
    ∧ Dict.get scenario "expected_params" = Some ep
    ∧ rows !! i
      = Some (Row.base tool_defs i q st et ep ++ Row.note_item scenario).
Proof.
  intros Hrows Hi Hl.
  destruct (has_labels_inv _ Hl) as (q & st & et & ep & Hq & Hst & Het & Hep).
  destruct (rows_of_lookup _ _ _ _ _ Hrows Hi) as (row & Hrow & Hmk).
  rewrite (make_row_labelled _ _ _ q st et ep) in Hmk by done.
  injection Hmk as <-. by exists q, st, et, ep.
Qed.

Lemma rows_of_length tool_defs rows scenarios :
  Return <$> rows = Row.rows_of tool_defs 0 scenarios →
  length rows = length scenarios.
Proof.
  intros H. apply (f_equal length) in H.
  unfold Row.rows_of in H. by rewrite length_fmap, length_imap in H.
Qed.

End DatasetFacts.

(** ** Scenario identifiers *)

Section IdFacts.

Lemma scenario_id_lt i j :
  (i < j < 99)%nat →
  String.ltb (Dataset.scenario_id i) (Dataset.scenario_id j) = true.
Proof.
  intros [Hij Hj].
  assert (Row.ids_grow_upto 99 = true) as H by (vm_compute; reflexivity).
  unfold Row.ids_grow_upto in H.
  pose proof (proj1 (forallb_forall _ _) H i) as Hi.
  assert (In i (seq 0 99)) as Hin by (apply in_seq; lia).
  pose proof (proj1 (forallb_forall _ _) (Hi Hin) j) as Hj'.
  apply Hj'. apply in_seq. lia.
Qed.

Lemma compare_refl s : String.compare s s = Eq.
Proof.
  induction s as [|a s IH]; simpl; [done|].
  unfold Ascii.compare. by rewrite N.compare_refl.
Qed.

Lemma ltb_irrefl s : String.ltb s s = false.
Proof. unfold String.ltb. by rewrite compare_refl. Qed.

Lemma scenario_id_ne i j :
  (i < j < 99)%nat → Dataset.scenario_id i ≠ Dataset.scenario_id j.
Proof.
  intros H Heq. apply scenario_id_lt in H. rewrite Heq, ltb_irrefl in H. done.
Qed.

End IdFacts.

(** ** The built dataset *)

Section BuiltDataset.

Lemma test_scenarios_labelled :
  Forall (λ s, Row.has_labels s = true) Dataset.test_scenarios.
Proof. repeat constructor. Qed.

Lemma Forall_fmap_Return {A} (P : A → Prop) (rows : list A) (rs : list (PyResult A)) :
  Return <$> rows = rs →
  Forall (λ r, match r with Return row => P row | Raise _ => False end) rs →
  Forall P rows.
Proof. intros <-. by rewrite Forall_fmap. Qed.

Lemma built_rows_declared :
  Forall (λ r, match r with
               | Return row => Row.tool_declared row = true
               | Raise _ => False
               end)
         (Row.rows_of Dataset.tool_definitions 0 Dataset.test_scenarios).
Proof. repeat (constructor; [vm_compute; reflexivity|]). constructor. Qed.

Lemma built_rows_ids (rows : list dict) :
  Return <$> rows = Row.rows_of Dataset.tool_definitions 0 Dataset.test_scenarios →
  Row.id_of <$> rows = (λ i, Some (Dataset.scenario_id i)) <$> seq 0 11.
Proof.
  intros H.
  apply (f_equal (fmap (λ r, match r with
                             | Return row => Row.id_of row
                             | Raise _ => None
                             end))) in H.
  rewrite <- list_fmap_compose in H. simpl in H. etrans; [|etrans; [exact H|]].
  - done.
  - vm_compute. reflexivity.
Qed.

Lemma tool_declared_inv row :
  Row.tool_declared row = true →
  ∃ name tool_defs,
    Dict.get row "expected_tool" = Some (JStr name)
    ∧ Dict.get row "tool_definitions" = Some (JList tool_defs)
    ∧ name ∈ Row.declared_names tool_defs.
Proof.
  unfold Row.tool_declared.
  destruct (Dict.get row "expected_tool") as [[| | |name| |]|]; try done.
  destruct (Dict.get row "tool_definitions") as [[| | | |tool_defs|]|]; try done.
  intros H%bool_decide_eq_true. by exists name, tool_defs.
Qed.

End BuiltDataset.

Lemma built_row_id (rows : list dict) i row :
  Return <$> rows = Row.rows_of Dataset.tool_definitions 0 Dataset.test_scenarios →
  rows !! i = Some row →
  (i < 11)%nat ∧ Row.id_of row = Some (Dataset.scenario_id i).
Proof.
  intros Hrows Hi. pose proof (built_rows_ids rows Hrows) as Hids.
  assert (length rows = 11%nat) as Hlen by (by rewrite (rows_of_length _ _ _ Hrows)).
  assert (i < 11)%nat as Hlt by (rewrite <- Hlen; by eapply lookup_lt_Some).
  split; [done|].
  apply (f_equal (λ l, l !! i)) in Hids.
  rewrite !list_lookup_fmap, Hi, lookup_seq_lt in Hids by done.
  simpl in Hids. congruence.
Qed.

(** ** The API client *)

Section ClientFacts.

Variable env : Env.

Implicit Types (self : PortfolioManagerApiClient) (w : World).

(** One call of [send_chat_query] on an open session: one request, answered
    by the surroundings. *)
Lemma send_chat_query_open self query account_id thread_id w :
  session self = true →
  send_chat_query env self query account_id thread_id w
  = (Run.query_result_at env self (length (http_log w)) query account_id thread_id,
     mkWorld (fs w)
       (http_log w ++ [chat_query_request self query account_id thread_id])
       (clock_reads w)).
Proof.
  intros Hs. unfold send_chat_query, Run.query_result_at, http_request.
  rewrite Hs. py_unfold.
  destruct (server env _ _) as [response|ex]; [|done].
  by destruct (chat_query_response response).
Qed.

(** Before [__aenter__] there is no session to post with. *)
Lemma send_chat_query_closed self query account_id thread_id w :
  session self = false →
  send_chat_query env self query account_id thread_id w
  = (Raise (none_has_no_attribute "post"), w).
Proof. intros Hs. unfold send_chat_query. rewrite Hs. by py_unfold. Qed.

Lemma health_check_open self w :
  session self = true →
  health_check env self w
  = (Return match server env (length (http_log w)) (health_request self) with
            | Return response => resp_status response =? 200
            | Raise _ => false
            end,
     mkWorld (fs w) (http_log w ++ [health_request self]) (clock_reads w)).
Proof.
  intros Hs. unfold health_check, http_request. rewrite Hs. py_unfold.
  by destruct (server env _ _).
Qed.


End ClientFacts.

(** ** The response collector *)

Section CollectorFacts.

Variable env : Env.

Implicit Types (self : PortfolioManagerApiClient) (w : World)
  (scenario : dict) (test_data enriched_data : list dict).

(** One turn of the loop on a scenario that has a query: one request, one
    reading of the clock, one record. *)
Lemma process_scenario_queried self account_id scenario enriched_data w :
  session self = true →
  Dict.contains scenario "query" = true →
  Collector.process_scenario env self account_id scenario enriched_data w
  = (Return (enriched_data
             ++ [Run.record_at env self account_id (length (http_log w))
                   (clock_reads w) scenario]),
     mkWorld (fs w) (http_log w ++ [Run.request_of self account_id scenario])
       (S (clock_reads w))).
Proof.
  intros Hs [q Hq]%contains_true.
  unfold Collector.process_scenario, Run.record_at, Run.request_of, Run.query_of.
  unfold try_except, bind at 1. unfold lift at 1, getitem. rewrite Hq. simpl.
  unfold bind at 1. rewrite (send_chat_query_open env self q account_id None w Hs).
  unfold Run.record_for.
  destruct (Run.query_result_at env self _ q account_id None)
    as [api_response|ex]; [|done].
  unfold bind at 1. unfold lift at 1.
  by destruct (Collector.get_method api_response).
Qed.

(** One turn of the loop never raises and appends exactly one record,
    derived from the scenario, whatever the scenario and the client. *)
Lemma process_scenario_total self account_id scenario enriched_data w :
  ∃ record w',
    Collector.process_scenario env self account_id scenario enriched_data w
    = (Return (enriched_data ++ [record]), w')
    ∧ fs w' = fs w
    ∧ Run.enrichment_of scenario record.
Proof.
  unfold Collector.process_scenario, try_except, bind at 1.
  unfold lift at 1, getitem.
  destruct (Dict.get scenario "query") as [q|].
  - unfold bind at 1.
    destruct (send_chat_query env self q account_id None w) as [[p|ex] w1] eqn:Hsend.
    + assert (fs w1 = fs w) as Hfs.
      { unfold send_chat_query in Hsend. py_unfold. unfold http_request in Hsend.
        destruct (session self); [|done].
        destruct (server env _ _); [|done].
        destruct (chat_query_response _); [|done]. by injection Hsend as _ <-. }
      unfold bind at 1. unfold lift at 1.
      destruct (Collector.get_method p) as [payload|ex].
      * eexists _, _. split; [reflexivity|]. split; [done|]. left. by eexists _, _.
      * eexists _, _. split; [reflexivity|]. split; [done|]. right. by eexists _, _.
    + eexists _, _. split; [reflexivity|]. split; [|right; by eexists _, _].
      simpl. unfold send_chat_query in Hsend. py_unfold. unfold http_request in Hsend.
      destruct (session self); [|by injection Hsend as _ <-].
      destruct (server env _ _); [|by injection Hsend as _ <-].
      destruct (chat_query_response _); [done|]. by injection Hsend as _ <-.
  - eexists _, _. split; [reflexivity|]. split; [done|]. right. by eexists _, _.
Qed.

(** The loop appends one record per scenario, in order, as long as the
    progress line can be printed. *)
Lemma collect_loop_total self account_id test_data :
  Forall (λ s, Dict.contains s "scenario_type" = true) test_data →
  ∀ enriched_data w,
    ∃ new w',
      Collector.collect_loop env self account_id test_data enriched_data w
      = (Return (enriched_data ++ new), w')
      ∧ fs w' = fs w
      ∧ Forall2 Run.enrichment_of test_data new.
Proof.
  induction 1 as [|scenario test_data [st Hst]%contains_true _ IH];
    intros enriched_data w.
  - exists [], w. rewrite app_nil_r. by repeat split.
  - destruct (process_scenario_total self account_id scenario enriched_data w)
      as (record & w1 & Hstep & Hfs1 & Hrec).
    destruct (IH (enriched_data ++ [record]) w1) as (new & w' & Hrest & Hfs & Hnew).
    exists (record :: new), w'. split; [|split].
    + simpl. unfold bind at 1. unfold lift at 1, getitem. rewrite Hst.
      unfold bind at 1. rewrite Hstep, Hrest. by rewrite <- app_assoc.
    + congruence.
    + by constructor.
Qed.

(** The loop on scenarios that have a query: which request and which
    reading of the clock each record comes from. *)
Lemma collect_loop_scenarios self account_id test_data :
  session self = true →
  Forall (λ s, Run.is_scenario s = true) test_data →
  ∀ enriched_data w,
    Collector.collect_loop env self account_id test_data enriched_data w
    = (Return (enriched_data
               ++ imap (λ i s, Run.record_at env self account_id
                                 (length (http_log w) + i) (clock_reads w + i) s)
                    test_data),
       mkWorld (fs w)
         (http_log w ++ (Run.request_of self account_id <$> test_data))
         (clock_reads w + length test_data)).
Proof.
  intros Hs. induction 1 as [|scenario test_data Hsc _ IH]; intros enriched_data w.
  - simpl. unfold ret. rewrite !app_nil_r, Nat.add_0_r. by destruct w.
  - unfold Run.is_scenario in Hsc. apply andb_true_iff in Hsc as [Hq Hst].
    apply contains_true in Hst as [st Hst].
    simpl. unfold bind at 1. unfold lift at 1, getitem. rewrite Hst.
    unfold bind at 1.
    rewrite (process_scenario_queried self account_id scenario enriched_data w Hs Hq).
    rewrite IH. simpl. f_equal.
    + f_equal. rewrite <- app_assoc. simpl. rewrite !Nat.add_0_r. do 2 f_equal.
      apply imap_ext. intros i s _. simpl. rewrite length_app. simpl.
      f_equal; lia.
    + f_equal; [by rewrite <- app_assoc|lia].
Qed.

End CollectorFacts.

(** ** The records *)

Section RecordFacts.

Implicit Types (scenario api_response : dict) (ex : PyExc) (timestamp : string).

Lemma success_response scenario api_response timestamp :
  Dict.get (Collector.enrich_success scenario api_response timestamp) "response"
  = Some (Dict.get_default api_response "response" (JStr "No response")).
Proof. unfold Collector.enrich_success, Dict.copy. by dict_simpl. Qed.

Lemma success_tool_calls scenario api_response timestamp :
  Dict.get (Collector.enrich_success scenario api_response timestamp) "tool_calls"
  = Some (JList []).
Proof. unfold Collector.enrich_success, Dict.copy. by dict_simpl. Qed.

Lemma success_api_response_full scenario api_response timestamp :
  Dict.get (Collector.enrich_success scenario api_response timestamp)
    "api_response_full"
  = Some (JDict api_response).
Proof. unfold Collector.enrich_success, Dict.copy. by dict_simpl. Qed.

Lemma success_timestamp scenario api_response timestamp :
  Dict.get (Collector.enrich_success scenario api_response timestamp) "timestamp"
  = Some (JStr timestamp).
Proof. unfold Collector.enrich_success, Dict.copy. by dict_simpl. Qed.

(** The success branch never assigns [error]. *)
Lemma success_error scenario api_response timestamp :
  Dict.get (Collector.enrich_success scenario api_response timestamp) "error"
  = Dict.get scenario "error".
Proof. unfold Collector.enrich_success, Dict.copy. by dict_simpl. Qed.

Lemma error_response scenario ex timestamp :
  Dict.get (Collector.enrich_error scenario ex timestamp) "response"
  = Some (JStr ("Error: " +:+ exc_str ex)).
Proof. unfold Collector.enrich_error, Dict.copy. by dict_simpl. Qed.

Lemma error_tool_calls scenario ex timestamp :
  Dict.get (Collector.enrich_error scenario ex timestamp) "tool_calls"
  = Some (JList []).
Proof. unfold Collector.enrich_error, Dict.copy. by dict_simpl. Qed.

Lemma error_error scenario ex timestamp :
  Dict.get (Collector.enrich_error scenario ex timestamp) "error"
  = Some (JStr (exc_str ex)).
Proof. unfold Collector.enrich_error, Dict.copy. by dict_simpl. Qed.

Lemma error_timestamp scenario ex timestamp :
  Dict.get (Collector.enrich_error scenario ex timestamp) "timestamp"
  = Some (JStr timestamp).
Proof. unfold Collector.enrich_error, Dict.copy. by dict_simpl. Qed.

(** The handler never assigns [api_response_full]. *)
Lemma error_api_response_full scenario ex timestamp :
  Dict.get (Collector.enrich_error scenario ex timestamp) "api_response_full"
  = Dict.get scenario "api_response_full".
Proof. unfold Collector.enrich_error, Dict.copy. by dict_simpl. Qed.

(** Both branches leave the other items of the scenario as they are. *)
Lemma enrichment_keeps scenario record k :
  Run.enrichment_of scenario record →
  k ∉ Run.enrichment_keys →
  Dict.get record k = Dict.get scenario k.
Proof.
  unfold Run.enrichment_keys. rewrite !not_elem_of_cons.
  intros [(p & ts & ->)|(ex & ts & ->)] (? & ? & ? & ? & ? & _);
    unfold Collector.enrich_success, Collector.enrich_error, Dict.copy;
    by rewrite !get_set_ne by done.
Qed.

End RecordFacts.

(** ** The whole run *)

Section RunFacts.

Variable env : Env.

Implicit Types (w : World) (test_data : list dict).

Lemma client_session_open url : session (client_aenter (client_init url)) = true.
Proof. done. Qed.

(** After a health check that says [True]: the loop, then the file. *)
Lemma collect_healthy path url account_id w test_data :
  fs w !! path = Some test_data →
  (health_check env (client_aenter (client_init url)) w).1 = Return true →
  Collector.collect_ai_responses env path url account_id w
  = match Collector.collect_loop env (client_aenter (client_init url))
            account_id test_data []
            (mkWorld (fs w)
               (http_log w ++ [health_request (client_aenter (client_init url))])
               (clock_reads w)) with
    | (Return enriched_data, w') =>
        (Return (Collector.enriched_file_of path),
         set_fs (λ f, <[Collector.enriched_file_of path := enriched_data]> f) w')
    | (Raise ex, w') => (Raise ex, w')
    end.
Proof.
  intros Hfile Hhealth. unfold Collector.collect_ai_responses.
  unfold bind at 1. unfold read_jsonl. rewrite Hfile.
  unfold bind at 1.
  rewrite health_check_open in Hhealth |- * by done. simpl in Hhealth.
  injection Hhealth as ->. simpl.
  unfold bind at 1. destruct (Collector.collect_loop _ _ _ _ _ _) as [[enriched|ex] w1]; [|done].
  unfold bind at 1. unfold open_write.
  unfold bind at 1.
  rewrite (write_all_appends _ enriched []) by (simpl; by rewrite lookup_insert_eq).
  unfold ret. simpl. f_equal. destruct w1 as [f l c]. unfold set_fs. simpl.
  by rewrite insert_insert_eq.
Qed.

(** After a health check that says [False]: nothing but the error. *)
Lemma collect_unhealthy path url account_id w test_data :
  fs w !! path = Some test_data →
  (health_check env (client_aenter (client_init url)) w).1 = Return false →
  Collector.collect_ai_responses env path url account_id w
  = (Raise (Collector.not_healthy url),
     mkWorld (fs w)
       (http_log w ++ [health_request (client_aenter (client_init url))])
       (clock_reads w)).
Proof.
  intros Hfile Hhealth. unfold Collector.collect_ai_responses.
  unfold bind at 1. unfold read_jsonl. rewrite Hfile.
  unfold bind at 1.
  rewrite health_check_open in Hhealth |- * by done. simpl in Hhealth.
  injection Hhealth as ->. done.
Qed.

(** The run on scenarios that have a query, in closed form. *)
Lemma collect_scenarios path url account_id w test_data :
  fs w !! path = Some test_data →
  (health_check env (client_aenter (client_init url)) w).1 = Return true →
  Forall (λ s, Run.is_scenario s = true) test_data →
  Collector.collect_ai_responses env path url account_id w
  = (Return (Collector.enriched_file_of path),
     mkWorld
       (<[Collector.enriched_file_of path :=
            imap (λ i s, Run.record_at env (client_aenter (client_init url))
                           account_id (S (length (http_log w)) + i)
                           (clock_reads w + i) s) test_data]> (fs w))
       (http_log w
        ++ health_request (client_aenter (client_init url))
           :: (Run.request_of (client_aenter (client_init url)) account_id
               <$> test_data))
       (clock_reads w + length test_data)).
Proof.
  intros Hfile Hhealth Hs.
  rewrite (collect_healthy path url account_id w test_data Hfile Hhealth).
  rewrite (collect_loop_scenarios env _ account_id test_data
             (client_session_open url) Hs).
  simpl. unfold set_fs. simpl. f_equal. f_equal.
  - f_equal. apply imap_ext. intros i s _. simpl.
    rewrite length_app. simpl. f_equal. lia.
  - by rewrite <- app_assoc.
Qed.

End RunFacts.

(** ** From the builder to the collector *)

Section Pipeline.

(** The rows the builder writes are fresh scenarios, as the statements on
    the collector ask of their input. *)
Lemma built_rows_fresh (rows : list dict) :
  Return <$> rows = Row.rows_of Dataset.tool_definitions 0 Dataset.test_scenarios →
  Forall (λ row, Run.is_fresh_scenario row = true) rows.
Proof.
  intros Hrows. eapply Forall_fmap_Return; [exact Hrows|].
  repeat (constructor; [vm_compute; reflexivity|]). constructor.
Qed.

Example three_rows_built :
  Return <$> Sample.three_rows
  = take 3 (Row.rows_of Dataset.tool_definitions 0 Dataset.test_scenarios).
Proof. vm_compute. reflexivity. Qed.

End Pipeline.

(** * The dataset builder: what is written *)

(** C8. Serializing a dataset writes one row per scenario, in the order of
    the scenarios; the row of the scenario at index [i] holds exactly, in
    this order, [query], the whole list of tool definitions (the same in
    every row), [scenario_id], [scenario_type], [expected_tool] and
    [expected_params], followed by the scenario's note, under the key
    [notes], if and only if the scenario has a [note]. *)
Theorem write_dataset_flattens output_file tool_defs (scenarios : list dict) w :
  Forall (λ s, Row.has_labels s = true) scenarios →
  ∃ rows,
    Dataset.write_dataset output_file tool_defs scenarios w
    = (Return tt, set_fs (λ f, <[output_file := rows]> f) w)
    ∧ length rows = length scenarios
    ∧ ∀ i scenario,
        scenarios !! i = Some scenario →
        ∃ q st et ep row,
          Dict.get scenario "query" = Some q
          ∧ Dict.get scenario "scenario_type" = Some st
          ∧ Dict.get scenario "expected_tool" = Some et
          ∧ Dict.get scenario "expected_params" = Some ep
          ∧ rows !! i = Some row
          ∧ row = Row.base tool_defs i q st et ep ++ Row.note_item scenario
          ∧ Dict.get row "notes" = Dict.get scenario "note".
Proof.
  intros Hs.
  destruct (write_dataset_rows output_file tool_defs scenarios w Hs)
    as (rows & Hrun & Hrows).
  exists rows. split; [done|]. split; [by eapply rows_of_length|].
  intros i scenario Hi.
  assert (Row.has_labels scenario = true) as Hl.
  { rewrite Forall_lookup in Hs. by eapply Hs. }
  destruct (rows_of_lookup_labelled _ _ _ _ _ Hrows Hi Hl)
    as (q & st & et & ep & Hq & Hst & Het & Hep & Hrow).
  exists q, st, et, ep. eexists. repeat split; try done.
  unfold Row.note_item. by destruct (Dict.get scenario "note").
Qed.

Lemma write_dataset_flattens_witness :
  ∃ rows,
    Dataset.write_dataset "portfolio_test_dataset.jsonl"
      Dataset.tool_definitions Dataset.test_scenarios (mkWorld ∅ [] 0)
    = (Return tt,
       set_fs (λ f, <["portfolio_test_dataset.jsonl" := rows]> f) (mkWorld ∅ [] 0))
    ∧ length rows = length Dataset.test_scenarios
    ∧ ∀ i scenario,
        Dataset.test_scenarios !! i = Some scenario →
        ∃ q st et ep row,
          Dict.get scenario "query" = Some q
          ∧ Dict.get scenario "scenario_type" = Some st
          ∧ Dict.get scenario "expected_tool" = Some et
          ∧ Dict.get scenario "expected_params" = Some ep
          ∧ rows !! i = Some row
          ∧ row = Row.base Dataset.tool_definitions i q st et ep
                  ++ Row.note_item scenario
          ∧ Dict.get row "notes" = Dict.get scenario "note".
Proof.
  apply (write_dataset_flattens "portfolio_test_dataset.jsonl"
           Dataset.tool_definitions Dataset.test_scenarios (mkWorld ∅ [] 0)).
  repeat constructor.
Defined.

(** C9. In the dataset that [create_test_dataset] writes, whatever the
    output file and the state of the file system, the [expected_tool] of
    every row is a name declared by the tool definitions the row carries,
    which are the tool definitions of the dataset. *)
Theorem expected_tool_is_declared output_file w :
  ∃ rows,
    Dataset.create_test_dataset output_file w
    = (Return output_file, set_fs (λ f, <[output_file := rows]> f) w)
    ∧ length rows = length Dataset.test_scenarios
    ∧ Forall (λ row, ∃ name,
                Dict.get row "expected_tool" = Some (JStr name)
                ∧ Dict.get row "tool_definitions"
                  = Some (JList Dataset.tool_definitions)
                ∧ name ∈ Row.declared_names Dataset.tool_definitions) rows.
Proof.
  destruct (write_dataset_rows output_file Dataset.tool_definitions
              Dataset.test_scenarios w test_scenarios_labelled)
    as (rows & Hrun & Hrows).
  exists rows. split; [|split].
  - unfold Dataset.create_test_dataset. py_unfold. by rewrite Hrun.
  - by eapply rows_of_length.
  - pose proof (Forall_fmap_Return _ _ _ Hrows built_rows_declared) as Hdecl.
    rewrite Forall_lookup in Hdecl. apply Forall_lookup. intros i row Hi.
    destruct (tool_declared_inv row (Hdecl i row Hi))
      as (name & tool_defs & Het & Htd & Hin).
    exists name. split; [done|].
    destruct (lookup_lt_is_Some_2 Dataset.test_scenarios i) as [scenario Hsc].
    { rewrite <- (rows_of_length _ _ _ Hrows). by eapply lookup_lt_Some. }
    assert (Row.has_labels scenario = true) as Hl.
    { pose proof test_scenarios_labelled as Hall.
      rewrite Forall_lookup in Hall. by eapply Hall. }
    destruct (rows_of_lookup_labelled _ _ _ _ _ Hrows Hsc Hl)
      as (q & st & et & ep & _ & _ & _ & _ & Hrow).
    assert (row = Row.base Dataset.tool_definitions i q st et ep
                  ++ Row.note_item scenario) as -> by congruence.
    simpl in Htd. injection Htd as <-. done.
Qed.

(** C10. In the dataset that [create_test_dataset] writes, the
    [scenario_id] of the row at index [i] (from 0) is ["test_"] followed by
    [i + 1] in decimal, padded with a zero to two digits: ["test_01"],
    ["test_02"], and so on to ["test_11"].  No two rows share an identifier,
    and the identifiers grow strictly, in the order of strings, along the
    file. *)
Theorem scenario_ids_sequential output_file w :
  ∃ rows,
    Dataset.create_test_dataset output_file w
    = (Return output_file, set_fs (λ f, <[output_file := rows]> f) w)
    ∧ Row.id_of <$> rows
      = Some <$> ["test_01"; "test_02"; "test_03"; "test_04"; "test_05";
                  "test_06"; "test_07"; "test_08"; "test_09"; "test_10";
                  "test_11"]
    ∧ (∀ i row,
         rows !! i = Some row →
         Row.id_of row = Some ("test_" +:+ PyStr.format_02d (Z.of_nat i + 1)))
    ∧ (∀ i j ri rj,
         rows !! i = Some ri → rows !! j = Some rj →
         Row.id_of ri = Row.id_of rj → i = j)
    ∧ (∀ i j ri rj,
         rows !! i = Some ri → rows !! j = Some rj → (i < j)%nat →
         ∃ a b, Row.id_of ri = Some a ∧ Row.id_of rj = Some b
                ∧ String.ltb a b = true).
Proof.
  destruct (write_dataset_rows output_file Dataset.tool_definitions
              Dataset.test_scenarios w test_scenarios_labelled)
    as (rows & Hrun & Hrows).
  exists rows. split; [|split; [|split; [|split]]].
  - unfold Dataset.create_test_dataset. py_unfold. by rewrite Hrun.
  - rewrite (built_rows_ids rows Hrows). vm_compute. reflexivity.
  - intros i row Hi. by destruct (built_row_id rows i row Hrows Hi) as [_ ->].
  - intros i j ri rj Hi Hj Heq.
    destruct (built_row_id rows i ri Hrows Hi) as [Hi11 Hidi].
    destruct (built_row_id rows j rj Hrows Hj) as [Hj11 Hidj].
    rewrite Hidi, Hidj in Heq. apply (inj Some) in Heq.
    destruct (Nat.lt_trichotomy i j) as [Hlt|[->|Hlt]]; [|done|].
    + exfalso. apply (scenario_id_ne i j); [lia|done].
    + exfalso. apply (scenario_id_ne j i); [lia|done].
  - intros i j ri rj Hi Hj Hlt.
    destruct (built_row_id rows i ri Hrows Hi) as [Hi11 Hidi].
    destruct (built_row_id rows j rj Hrows Hj) as [Hj11 Hidj].
    exists (Dataset.scenario_id i), (Dataset.scenario_id j).
    repeat split; [done..|]. apply scenario_id_lt. lia.
Qed.

(** * The API client *)



(** C5, as the code has it.  On an open session [send_chat_query] sends
    one POST and
    - when the answer has a status other than 200 and its body text is
      [body], raises a plain [Exception] whose message is
      ["API Error <status>: <body>"];
    - when the request fails at the transport level, raises the very
      exception the transport raised;
    - when the status is 200, gives what [response.json()] gives: the parsed
      body, unchanged, or the exception raised on a malformed body,
      unchanged.
    The code declares no error class of its own. *)
Theorem send_chat_query_outcomes env self query account_id thread_id w :
  session self = true →
  let request := chat_query_request self query account_id thread_id in
  let answer := server env (length (http_log w)) request in
  let outcome := send_chat_query env self query account_id thread_id w in
  http_log outcome.2 = http_log w ++ [request]
  ∧ (∀ response body,
       answer = Return response →
       resp_status response ≠ 200 →
       resp_text response = Return body →
       outcome.1
       = Raise (mkExc [] ("API Error " +:+ pretty (resp_status response)
                          +:+ ": " +:+ body)))
  ∧ (∀ ex, answer = Raise ex → outcome.1 = Raise ex)
  ∧ (∀ response,
       answer = Return response →
       resp_status response = 200 →
       outcome.1 = resp_json response).
Proof.
  intros Hs request answer outcome. subst outcome.
  rewrite (send_chat_query_open env self query account_id thread_id w Hs).
  simpl. split; [done|]. unfold Run.query_result_at. fold request. fold answer.
  split; [|split].
  - intros response body -> Hst Hbody. unfold chat_query_response.
    destruct (Z.eqb_spec (resp_status response) 200) as [|_]; [done|].
    simpl. by rewrite Hbody.
  - by intros ex ->.
  - intros response -> Hst. unfold chat_query_response. by rewrite Hst.
Qed.

Lemma send_chat_query_outcomes_witness :
  let request := chat_query_request Sample.client (JStr "How is my portfolio performing today?") 1 None in
  let outcome :=
    send_chat_query Sample.failing Sample.client
      (JStr "How is my portfolio performing today?") 1 None Sample.world0 in
  http_log outcome.2 = [request]
  ∧ outcome.1 = Raise (mkExc [] "API Error 500: Internal Server Error").
Proof.
  intros request outcome.
  destruct (send_chat_query_outcomes Sample.failing Sample.client
              (JStr "How is my portfolio performing today?") 1 None
              Sample.world0 eq_refl) as (Hlog & Hstatus & _ & _).
  split; [exact Hlog|].
  apply (Hstatus _ "Internal Server Error" eq_refl); [discriminate|reflexivity].
Defined.

(** C5 does not hold as stated: the errors do not come as distinct classes.
    A status 500 is raised as a plain [Exception], the class every other
    error derives from, so that any [except] clause which handles it also
    handles a refused connection and a body that is not JSON; and these two
    are raised as the transport and the JSON decoder raised them, not as
    errors of classes of the client. *)
Lemma send_chat_query_errors_not_distinct :
  let call env :=
    (send_chat_query env Sample.client
       (JStr "How is my portfolio performing today?") 1 None Sample.world0).1 in
  ∃ api_error,
    call Sample.failing = Raise api_error
    ∧ exc_path api_error = []
    ∧ call Sample.unreachable = Raise Sample.connection_refused
    ∧ call Sample.garbled = Raise Sample.json_decode_error
    ∧ ∀ C, isinstance api_error C = true →
           isinstance Sample.connection_refused C = true
           ∧ isinstance Sample.json_decode_error C = true.
Proof.
  intros call. eexists. split; [reflexivity|]. split; [reflexivity|].
  split; [reflexivity|]. split; [reflexivity|].
  intros C H. unfold isinstance in H. apply bool_decide_eq_true in H.
  simpl in H. rewrite !elem_of_cons in H.
  destruct H as [->|[->|[->|H]]]; [by split..|].
  by apply elem_of_nil in H.
Qed.

(** * The response collector *)

(** C1. When the dataset file holds [test_data], the health check says
    [True] and every row has a [scenario_type], [collect_ai_responses]
    returns, whatever the answers to the queries; the file it names holds
    exactly one record per row, in the order of the rows: the record at
    index [i] is the row at index [i] enriched by one of the two branches
    of the loop, with every other item of the row unchanged. *)
Theorem collect_one_record_per_scenario env path url account_id w
    (test_data : list dict) :
  fs w !! path = Some test_data →
  (health_check env (client_aenter (client_init url)) w).1 = Return true →
  Forall (λ s, Dict.contains s "scenario_type" = true) test_data →
  ∃ (enriched : list dict) w',
    Collector.collect_ai_responses env path url account_id w
    = (Return (Collector.enriched_file_of path), w')
    ∧ fs w' = <[Collector.enriched_file_of path := enriched]> (fs w)
    ∧ length enriched = length test_data
    ∧ ∀ i scenario,
        test_data !! i = Some scenario →
        ∃ record,
          enriched !! i = Some record
          ∧ Run.enrichment_of scenario record
          ∧ ∀ k, k ∉ Run.enrichment_keys →
                 Dict.get record k = Dict.get scenario k.
Proof.
  intros Hfile Hhealth Hs.
  rewrite (collect_healthy env path url account_id w test_data Hfile Hhealth).
  destruct (collect_loop_total env (client_aenter (client_init url)) account_id
              test_data Hs []
              (mkWorld (fs w)
                 (http_log w ++ [health_request (client_aenter (client_init url))])
                 (clock_reads w)))
    as (enriched & w1 & -> & Hfs & Hall).
  exists enriched, (set_fs (λ f, <[Collector.enriched_file_of path := enriched]> f) w1).
  split; [done|]. split; [simpl; by rewrite Hfs|].
  split; [symmetry; by eapply Forall2_length|].
  intros i scenario Hi.
  destruct (Forall2_lookup_l _ _ _ _ _ Hall Hi) as (record & Hrec & Henr).
  exists record. split; [done|]. split; [done|].
  intros k Hk. by apply enrichment_keeps.
Qed.

Lemma collect_one_record_per_scenario_witness :
  ∃ (enriched : list dict) w',
    Collector.collect_ai_responses (Sample.failing_at [2%nat])
      Sample.dataset_file Sample.api_base_url 1 Sample.world3
    = (Return (Collector.enriched_file_of Sample.dataset_file), w')
    ∧ fs w' = <[Collector.enriched_file_of Sample.dataset_file := enriched]>
                (fs Sample.world3)
    ∧ length enriched = length Sample.three_rows
    ∧ ∀ i scenario,
        Sample.three_rows !! i = Some scenario →
        ∃ record,
          enriched !! i = Some record
          ∧ Run.enrichment_of scenario record
          ∧ ∀ k, k ∉ Run.enrichment_keys →
                 Dict.get record k = Dict.get scenario k.
Proof.
  apply (collect_one_record_per_scenario (Sample.failing_at [2%nat])
           Sample.dataset_file Sample.api_base_url 1 Sample.world3
           Sample.three_rows).
  - vm_compute. reflexivity.
  - vm_compute. reflexivity.
  - repeat constructor.
Defined.

(** C2. When the health check says [False], [collect_ai_responses] raises
    the error that the service is not healthy, a plain [Exception] with the
    message of the code, before any scenario is taken up: the only request
    sent is the GET of the health check, so no query is posted; no record
    is made and no file is written; the clock is not read. *)
Theorem collect_fails_fast_when_unhealthy env path url account_id w
    (test_data : list dict) :
  fs w !! path = Some test_data →
  (health_check env (client_aenter (client_init url)) w).1 = Return false →
  ∃ w',
    Collector.collect_ai_responses env path url account_id w
    = (Raise (Exception ("Portfolio Manager API at " +:+ url
                         +:+ " is not healthy. Please ensure it's running.")),
       w')
    ∧ fs w' = fs w
    ∧ http_log w'
      = http_log w
        ++ [mkRequest GET (PyStr.rstrip "/" url +:+ "/api/ai/chat/health") None []]
    ∧ clock_reads w' = clock_reads w.
Proof.
  intros Hfile Hhealth.
  rewrite (collect_unhealthy env path url account_id w test_data Hfile Hhealth).
  by eexists.
Qed.

Lemma collect_fails_fast_when_unhealthy_witness :
  ∃ w',
    Collector.collect_ai_responses Sample.unreachable
      Sample.dataset_file Sample.api_base_url 1 Sample.world3
    = (Raise (Exception "Portfolio Manager API at http://localhost:5000 is not healthy. Please ensure it's running."),
       w')
    ∧ fs w' = fs Sample.world3
    ∧ http_log w'
      = [mkRequest GET "http://localhost:5000/api/ai/chat/health" None []]
    ∧ clock_reads w' = 0%nat.
Proof.
  apply (collect_fails_fast_when_unhealthy Sample.unreachable
           Sample.dataset_file Sample.api_base_url 1 Sample.world3
           Sample.three_rows).
  - vm_compute. reflexivity.
  - vm_compute. reflexivity.
Defined.

(** C3, as the code has it.  In a run on fresh scenarios (rows with a
    [query] and a [scenario_type] and no [error] yet) after a health check
    that says [True], the query of the scenario at index [i] is the request
    number [i + 1] after those sent before the run, and the record at index
    [i] always has a [response].  It has an [error] exactly when the [try]
    block of its own scenario raised: when that very call failed, or when
    the call returned a payload that is not a dictionary, so that
    [api_response.get] raised.  Then [error] is the text of the exception
    and [response] is ["Error: "] followed by that text.  When the call
    returned a dictionary the record has no [error] and its [response] is
    the one of the payload.  The calls of the other scenarios do not enter:
    what goes wrong for scenario [k] shows in record [k] alone. *)
Theorem error_exactly_when_own_try_raised env path url account_id w
    (test_data : list dict) :
  fs w !! path = Some test_data →
  (health_check env (client_aenter (client_init url)) w).1 = Return true →
  Forall (λ s, Run.is_fresh_scenario s = true) test_data →
  let self := client_aenter (client_init url) in
  ∃ (enriched : list dict) w',
    Collector.collect_ai_responses env path url account_id w
    = (Return (Collector.enriched_file_of path), w')
    ∧ fs w' = <[Collector.enriched_file_of path := enriched]> (fs w)
    ∧ http_log w'
      = http_log w
        ++ health_request self :: (Run.request_of self account_id <$> test_data)
    ∧ ∀ i scenario,
        test_data !! i = Some scenario →
        ∃ record,
          enriched !! i = Some record
          ∧ Dict.contains record "response" = true
          ∧ match Run.query_result_at env self (S (length (http_log w)) + i)
                    (Run.query_of scenario) account_id None with
            | Return (JDict api_response) =>
                Dict.get record "error" = None
                ∧ Dict.get record "response"
                  = Some (Dict.get_default api_response "response"
                            (JStr "No response"))
            | Return other =>
                Dict.get record "error"
                = Some (JStr ("'" +:+ Collector.type_name other
                              +:+ "' object has no attribute 'get'"))
                ∧ Dict.get record "response"
                  = Some (JStr ("Error: " +:+ "'" +:+ Collector.type_name other
                                +:+ "' object has no attribute 'get'"))
            | Raise ex =>
                Dict.get record "error" = Some (JStr (exc_str ex))
                ∧ Dict.get record "response"
                  = Some (JStr ("Error: " +:+ exc_str ex))
            end.
Proof.
  intros Hfile Hhealth Hfresh self.
  assert (Forall (λ s, Run.is_scenario s = true) test_data) as Hs.
  { eapply Forall_impl; [exact Hfresh|]. intros s H.
    unfold Run.is_fresh_scenario in H. by apply andb_true_iff in H as [? _]. }
  rewrite (collect_scenarios env path url account_id w test_data Hfile Hhealth Hs).
  eexists _, _. split; [reflexivity|]. split; [done|]. split; [done|].
  intros i scenario Hi. eexists. split.
  { rewrite list_lookup_imap, Hi. reflexivity. }
  assert (Dict.get scenario "error" = None) as Hno.
  { rewrite Forall_lookup in Hfresh. specialize (Hfresh i scenario Hi).
    unfold Run.is_fresh_scenario in Hfresh.
    apply andb_true_iff in Hfresh as [_ H%negb_true_iff].
    by apply contains_false. }
  unfold Run.record_at, Run.record_for. fold self.
  destruct (Run.query_result_at env self _ _ _ _) as [[| | | | |api_response]|ex];
    cbn [Collector.get_method];
    unfold Dict.contains;
    rewrite ?success_response, ?success_error, ?error_response, ?error_error;
    done.
Qed.

Lemma error_exactly_when_own_try_raised_witness :
  let self := client_aenter (client_init Sample.api_base_url) in
  ∃ (enriched : list dict) w',
    Collector.collect_ai_responses (Sample.failing_at [2%nat])
      Sample.dataset_file Sample.api_base_url 1 Sample.world3
    = (Return (Collector.enriched_file_of Sample.dataset_file), w')
    ∧ fs w' = <[Collector.enriched_file_of Sample.dataset_file := enriched]>
                (fs Sample.world3)
    ∧ http_log w'
      = http_log Sample.world3
        ++ health_request self :: (Run.request_of self 1 <$> Sample.three_rows)
    ∧ ∀ i scenario,
        Sample.three_rows !! i = Some scenario →
        ∃ record,
          enriched !! i = Some record
          ∧ Dict.contains record "response" = true
          ∧ match Run.query_result_at (Sample.failing_at [2%nat]) self
                    (S (length (http_log Sample.world3)) + i)
                    (Run.query_of scenario) 1 None with
            | Return (JDict api_response) =>
                Dict.get record "error" = None
                ∧ Dict.get record "response"
                  = Some (Dict.get_default api_response "response"
                            (JStr "No response"))
            | Return other =>
                Dict.get record "error"
                = Some (JStr ("'" +:+ Collector.type_name other
                              +:+ "' object has no attribute 'get'"))
                ∧ Dict.get record "response"
                  = Some (JStr ("Error: " +:+ "'" +:+ Collector.type_name other
                                +:+ "' object has no attribute 'get'"))
            | Raise ex =>
                Dict.get record "error" = Some (JStr (exc_str ex))
                ∧ Dict.get record "response"
                  = Some (JStr ("Error: " +:+ exc_str ex))
            end.
Proof.
  apply (error_exactly_when_own_try_raised (Sample.failing_at [2%nat])
           Sample.dataset_file Sample.api_base_url 1 Sample.world3
           Sample.three_rows).
  - vm_compute. reflexivity.
  - vm_compute. reflexivity.
  - repeat constructor.
Defined.

(** C3 does not hold as stated: a record can have an [error] although its
    own call succeeded.  With a healthy service that answers every query
    with status 200 and the body [null], [send_chat_query] returns [None]
    for the first scenario, [api_response.get] raises inside the [try], and
    the three records of a dataset of three scenarios all have the [error]
    of that [AttributeError]. *)
Lemma error_although_call_succeeded :
  Run.query_result_at Sample.null_answers Sample.client 1
    (JStr "How is my portfolio performing today?") 1 None
  = Return JNull
  ∧ ∃ r0 r1 r2 w',
      Collector.collect_ai_responses Sample.null_answers
        Sample.dataset_file Sample.api_base_url 1 Sample.world3
      = (Return "portfolio_test_dataset_with_responses.jsonl", w')
      ∧ fs w' !! "portfolio_test_dataset_with_responses.jsonl"
        = Some [r0; r1; r2]
      ∧ Dict.get r0 "query" = Some (JStr "How is my portfolio performing today?")
      ∧ Forall (λ record,
                  Dict.get record "error"
                  = Some (JStr "'NoneType' object has no attribute 'get'"))
               [r0; r1; r2].
Proof.
  split; [reflexivity|].
  eexists _, _, _, _. split; [vm_compute; reflexivity|].
  split; [vm_compute; reflexivity|].
  split; [reflexivity|]. repeat constructor.
Qed.

(** C4, as the code has it.  In a run on scenarios after a health check
    that says [True], the record of every scenario whose call returned a
    dictionary has, as [response], the [response] item of the payload, or
    the string ["No response"] when the payload has none, and, as
    [tool_calls], the empty list.  In particular, with the mock that
    answers [{"response": "All good"}] to every call, a dataset of three
    scenarios gives three records, each with the response ["All good"],
    without [error] and with empty [tool_calls]. *)
Theorem success_response_and_tool_calls :
  (∀ env path url account_id w (test_data : list dict),
     fs w !! path = Some test_data →
     (health_check env (client_aenter (client_init url)) w).1 = Return true →
     Forall (λ s, Run.is_scenario s = true) test_data →
     let self := client_aenter (client_init url) in
     ∃ (enriched : list dict) w',
       Collector.collect_ai_responses env path url account_id w
       = (Return (Collector.enriched_file_of path), w')
       ∧ fs w' = <[Collector.enriched_file_of path := enriched]> (fs w)
       ∧ ∀ i scenario api_response,
           test_data !! i = Some scenario →
           Run.query_result_at env self (S (length (http_log w)) + i)
             (Run.query_of scenario) account_id None
           = Return (JDict api_response) →
           ∃ record,
             enriched !! i = Some record
             ∧ Dict.get record "response"
               = Some match Dict.get api_response "response" with
                      | Some response => response
                      | None => JStr "No response"
                      end
             ∧ Dict.get record "tool_calls" = Some (JList []))
  ∧ (∃ r0 r1 r2 w',
       Collector.collect_ai_responses Sample.all_good
         Sample.dataset_file Sample.api_base_url 1 Sample.world3
       = (Return "portfolio_test_dataset_with_responses.jsonl", w')
       ∧ fs w' !! "portfolio_test_dataset_with_responses.jsonl"
         = Some [r0; r1; r2]
       ∧ Forall (λ record,
                   Dict.get record "response" = Some (JStr "All good")
                   ∧ Dict.contains record "error" = false
                   ∧ Dict.get record "tool_calls" = Some (JList []))
                [r0; r1; r2]).
Proof.
  split.
  - intros env path url account_id w test_data Hfile Hhealth Hs self.
    rewrite (collect_scenarios env path url account_id w test_data Hfile Hhealth Hs).
    eexists _, _. split; [reflexivity|]. split; [done|].
    intros i scenario api_response Hi Hres. eexists. split.
    { rewrite list_lookup_imap, Hi. reflexivity. }
    unfold Run.record_at. fold self. rewrite Hres. simpl.
    by rewrite success_response, success_tool_calls.
  - eexists _, _, _, _. split; [vm_compute; reflexivity|].
    split; [vm_compute; reflexivity|].
    repeat constructor.
Qed.

Lemma success_response_and_tool_calls_witness :
  let self := client_aenter (client_init Sample.api_base_url) in
  ∃ (enriched : list dict) w',
    Collector.collect_ai_responses Sample.all_good
      Sample.dataset_file Sample.api_base_url 1 Sample.world3
    = (Return (Collector.enriched_file_of Sample.dataset_file), w')
    ∧ fs w' = <[Collector.enriched_file_of Sample.dataset_file := enriched]>
                (fs Sample.world3)
    ∧ ∀ i scenario api_response,
        Sample.three_rows !! i = Some scenario →
        Run.query_result_at Sample.all_good self
          (S (length (http_log Sample.world3)) + i)
          (Run.query_of scenario) 1 None
        = Return (JDict api_response) →
        ∃ record,
          enriched !! i = Some record
          ∧ Dict.get record "response"
            = Some match Dict.get api_response "response" with
                   | Some response => response
                   | None => JStr "No response"
                   end
          ∧ Dict.get record "tool_calls" = Some (JList []).
Proof.
  apply (proj1 success_response_and_tool_calls Sample.all_good
           Sample.dataset_file Sample.api_base_url 1 Sample.world3
           Sample.three_rows).
  - vm_compute. reflexivity.
  - vm_compute. reflexivity.
  - repeat constructor.
Defined.

(** C4 does not hold as stated: a call can succeed and the [response] of
    its record be neither an item of the payload nor ["No response"].  With
    a healthy service that answers every query with status 200 and a JSON
    list, [send_chat_query] returns that list for the first scenario; the
    list has no method [get], and the [response] of each of the three
    records is the text of the [AttributeError] after ["Error: "]. *)
Lemma response_of_payload_without_get :
  Run.query_result_at Sample.list_answers Sample.client 1
    (JStr "How is my portfolio performing today?") 1 None
  = Return (JList [JStr "All good"])
  ∧ ∃ r0 r1 r2 w',
      Collector.collect_ai_responses Sample.list_answers
        Sample.dataset_file Sample.api_base_url 1 Sample.world3
      = (Return "portfolio_test_dataset_with_responses.jsonl", w')
      ∧ fs w' !! "portfolio_test_dataset_with_responses.jsonl"
        = Some [r0; r1; r2]
      ∧ Dict.get r0 "query" = Some (JStr "How is my portfolio performing today?")
      ∧ Forall (λ record,
                  Dict.get record "response"
                  = Some (JStr "Error: 'list' object has no attribute 'get'"))
               [r0; r1; r2].
Proof.
  split; [reflexivity|].
  eexists _, _, _, _. split; [vm_compute; reflexivity|].
  split; [vm_compute; reflexivity|].
  split; [reflexivity|]. repeat constructor.
Qed.

(** C7, as the code has it.  In a run on scenarios after a health check
    that says [True], every record has a [response], an empty [tool_calls]
    and the [timestamp] read when the scenario was processed.  The record
    of a call that returned a dictionary has, as [api_response_full], the
    whole payload.  The record written by the handler, after a call that
    failed or that returned something else than a dictionary, has an
    [error], and the handler gives it no [api_response_full]: that key is
    there only if the row already had it. *)
Theorem payload_kept_when_call_succeeded env path url account_id w
    (test_data : list dict) :
  fs w !! path = Some test_data →
  (health_check env (client_aenter (client_init url)) w).1 = Return true →
  Forall (λ s, Run.is_scenario s = true) test_data →
  let self := client_aenter (client_init url) in
  ∃ (enriched : list dict) w',
    Collector.collect_ai_responses env path url account_id w
    = (Return (Collector.enriched_file_of path), w')
    ∧ fs w' = <[Collector.enriched_file_of path := enriched]> (fs w)
    ∧ ∀ i scenario,
        test_data !! i = Some scenario →
        ∃ record,
          enriched !! i = Some record
          ∧ Dict.contains record "response" = true
          ∧ Dict.get record "tool_calls" = Some (JList [])
          ∧ Dict.get record "timestamp"
            = Some (JStr (utcnow_isoformat env (clock_reads w + i)))
          ∧ match Run.query_result_at env self (S (length (http_log w)) + i)
                    (Run.query_of scenario) account_id None with
            | Return (JDict api_response) =>
                Dict.get record "api_response_full" = Some (JDict api_response)
            | Return other =>
                Dict.get record "error"
                = Some (JStr ("'" +:+ Collector.type_name other
                              +:+ "' object has no attribute 'get'"))
                ∧ Dict.get record "api_response_full"
                  = Dict.get scenario "api_response_full"
            | Raise ex =>
                Dict.get record "error" = Some (JStr (exc_str ex))
                ∧ Dict.get record "api_response_full"
                  = Dict.get scenario "api_response_full"
            end.
Proof.
  intros Hfile Hhealth Hs self.
  rewrite (collect_scenarios env path url account_id w test_data Hfile Hhealth Hs).
  eexists _, _. split; [reflexivity|]. split; [done|].
  intros i scenario Hi. eexists. split.
  { rewrite list_lookup_imap, Hi. reflexivity. }
  unfold Run.record_at, Run.record_for. fold self.
  destruct (Run.query_result_at env self _ _ _ _) as [[| | | | |api_response]|ex];
    cbn [Collector.get_method];
    unfold Dict.contains;
    rewrite ?success_response, ?success_tool_calls, ?success_timestamp,
      ?success_api_response_full, ?error_response, ?error_tool_calls,
      ?error_timestamp, ?error_error, ?error_api_response_full;
    done.
Qed.

Lemma payload_kept_when_call_succeeded_witness :
  let self := client_aenter (client_init Sample.api_base_url) in
  ∃ (enriched : list dict) w',
    Collector.collect_ai_responses (Sample.failing_at [2%nat])
      Sample.dataset_file Sample.api_base_url 1 Sample.world3
    = (Return (Collector.enriched_file_of Sample.dataset_file), w')
    ∧ fs w' = <[Collector.enriched_file_of Sample.dataset_file := enriched]>
                (fs Sample.world3)
    ∧ ∀ i scenario,
        Sample.three_rows !! i = Some scenario →
        ∃ record,
          enriched !! i = Some record
          ∧ Dict.contains record "response" = true
          ∧ Dict.get record "tool_calls" = Some (JList [])
          ∧ Dict.get record "timestamp"
            = Some (JStr (utcnow_isoformat (Sample.failing_at [2%nat])
                            (clock_reads Sample.world3 + i)))
          ∧ match Run.query_result_at (Sample.failing_at [2%nat]) self
                    (S (length (http_log Sample.world3)) + i)
                    (Run.query_of scenario) 1 None with
            | Return (JDict api_response) =>
                Dict.get record "api_response_full" = Some (JDict api_response)
            | Return other =>
                Dict.get record "error"
                = Some (JStr ("'" +:+ Collector.type_name other
                              +:+ "' object has no attribute 'get'"))
                ∧ Dict.get record "api_response_full"
                  = Dict.get scenario "api_response_full"
            | Raise ex =>
                Dict.get record "error" = Some (JStr (exc_str ex))
                ∧ Dict.get record "api_response_full"
                  = Dict.get scenario "api_response_full"
            end.
Proof.
  apply (payload_kept_when_call_succeeded (Sample.failing_at [2%nat])
           Sample.dataset_file Sample.api_base_url 1 Sample.world3
           Sample.three_rows).
  - vm_compute. reflexivity.
  - vm_compute. reflexivity.
  - repeat constructor.
Defined.

(** C7 does not hold as stated: the record of a failed call has no
    [api_response_full].  With a service whose health endpoint answers and
    whose chat endpoint cannot be reached, the three records of a dataset of
    three scenarios have [response], [tool_calls], [timestamp] and [error],
    and none has [api_response_full]. *)
Lemma failed_record_has_no_payload :
  ∃ r0 r1 r2 w',
    Collector.collect_ai_responses Sample.healthy_but_deaf
      Sample.dataset_file Sample.api_base_url 1 Sample.world3
    = (Return "portfolio_test_dataset_with_responses.jsonl", w')
    ∧ fs w' !! "portfolio_test_dataset_with_responses.jsonl"
      = Some [r0; r1; r2]
    ∧ Forall (λ record,
                Dict.contains record "response" = true
                ∧ Dict.contains record "tool_calls" = true
                ∧ Dict.contains record "timestamp" = true
                ∧ Dict.contains record "error" = true
                ∧ Dict.contains record "api_response_full" = false)
             [r0; r1; r2].
Proof.
  eexists _, _, _, _. split; [vm_compute; reflexivity|].
  split; [vm_compute; reflexivity|].
  repeat constructor.
Qed.

(** * Further properties of the code *)

(** ** The dataset file *)

(** X1. Running [create_test_dataset] again replaces the file instead of
    adding to it: what the file holds afterwards does not depend on what
    it held before, a second run changes nothing, and no other file, no
    request and no reading of the clock is involved. *)
Theorem create_test_dataset_replaces output_file w :
  let w1 := (Dataset.create_test_dataset output_file w).2 in
  Dataset.create_test_dataset output_file w1 = (Return output_file, w1)
  ∧ (∀ w2, fs (Dataset.create_test_dataset output_file w2).2 !! output_file
           = fs w1 !! output_file)
  ∧ (∀ path, path ≠ output_file → fs w1 !! path = fs w !! path)
  ∧ http_log w1 = http_log w
  ∧ clock_reads w1 = clock_reads w.
Proof.
  assert (∀ w0, ∃ rows,
            Dataset.create_test_dataset output_file w0
            = (Return output_file, set_fs (λ f, <[output_file := rows]> f) w0)
            ∧ Return <$> rows
              = Row.rows_of Dataset.tool_definitions 0 Dataset.test_scenarios)
    as Hrun.
  { intros w0.
    destruct (write_dataset_rows output_file Dataset.tool_definitions
                Dataset.test_scenarios w0 test_scenarios_labelled)
      as (rows & Hrun & Hrows).
    exists rows. split; [|done].
    unfold Dataset.create_test_dataset. py_unfold. by rewrite Hrun. }
  assert (∀ rows rows' : list dict,
            Return <$> rows = Return (A:=dict) <$> rows' → rows = rows') as Hinj.
  { induction rows as [|r rows IH]; intros [|r' rows'] H; try done.
    injection H as -> H. by rewrite (IH rows'). }
  intros w1. subst w1.
  destruct (Hrun w) as (rows & -> & Hrows).
  change ((Return output_file, set_fs (λ f, <[output_file := rows]> f) w).2)
    with (set_fs (λ f, <[output_file := rows]> f) w).
  split; [|split; [|split]].
  - destruct (Hrun (set_fs (λ f, <[output_file := rows]> f) w))
      as (rows' & -> & Hrows').
    assert (rows' = rows) as -> by (apply Hinj; congruence).
    destruct w as [f l c]. unfold set_fs. simpl. by rewrite insert_insert_eq.
  - intros w2. destruct (Hrun w2) as (rows' & -> & Hrows').
    assert (rows' = rows) as -> by (apply Hinj; congruence).
    simpl. by rewrite !lookup_insert_eq.
  - intros path Hne. simpl. by rewrite lookup_insert_ne.
  - done.
Qed.



(** ** The loop of the collector on rows of any shape *)

Section LoopFacts.

Variable env : Env.

Implicit Types (self : PortfolioManagerApiClient) (w : World)
  (scenario : dict) (test_data enriched_data : list dict).

(** A row without a query: [scenario["query"]] raises inside the [try],
    before anything is sent. *)
Lemma process_scenario_no_query self account_id scenario enriched_data w :
  Dict.get scenario "query" = None →
  Collector.process_scenario env self account_id scenario enriched_data w
  = (Return (enriched_data
             ++ [Collector.enrich_error scenario (KeyError "query")
                   (utcnow_isoformat env (clock_reads w))]),
     mkWorld (fs w) (http_log w) (S (clock_reads w))).
Proof.
  intros Hq. unfold Collector.process_scenario, try_except, bind at 1.
  unfold lift at 1, getitem. by rewrite Hq.
Qed.

Lemma collect_loop_app self account_id test_data rest enriched_data w :
  Collector.collect_loop env self account_id (test_data ++ rest) enriched_data w
  = match Collector.collect_loop env self account_id test_data enriched_data w with
    | (Return enriched_data', w') =>
        Collector.collect_loop env self account_id rest enriched_data' w'
    | (Raise ex, w') => (Raise ex, w')
    end.
Proof.
  revert enriched_data w.
  induction test_data as [|scenario test_data IH]; intros enriched_data w; [done|].
  simpl. unfold bind.
  destruct (lift (getitem scenario "scenario_type") w) as [[st|ex] w1]; [|done].
  destruct (Collector.process_scenario env self account_id scenario
              enriched_data w1) as [[enriched_data'|ex] w2]; [|done].
  apply IH.
Qed.

(** The loop on rows that all have a [scenario_type]: one reading of the
    clock per row, one request per row that has a query, and an error
    record for each row that has none. *)
Lemma collect_loop_any self account_id test_data :
  session self = true →
  Forall (λ s, Dict.contains s "scenario_type" = true) test_data →
  ∀ enriched_data w,
    ∃ new,
      Collector.collect_loop env self account_id test_data enriched_data w
      = (Return (enriched_data ++ new),
         mkWorld (fs w)
           (http_log w
            ++ (Run.request_of self account_id
                <$> filter (λ s, Dict.contains s "query" = true) test_data))
           (clock_reads w + length test_data))
      ∧ Forall2 (λ s r, Dict.get s "query" = None →
                        ∃ timestamp,
                          r = Collector.enrich_error s (KeyError "query") timestamp)
                test_data new.
Proof.
  intros Hs. induction 1 as [|scenario test_data [st Hst]%contains_true _ IH];
    intros enriched_data w.
  - exists []. split; [|done]. simpl. unfold ret.
    rewrite !app_nil_r, Nat.add_0_r. by destruct w.
  - simpl. unfold bind at 1. unfold lift at 1, getitem. rewrite Hst.
    unfold bind at 1.
    destruct (Dict.contains scenario "query") eqn:Hq.
    + rewrite (process_scenario_queried env self account_id scenario
                 enriched_data w Hs Hq).
      edestruct IH as (new & -> & Hnew).
      eexists (_ :: new). split.
      * rewrite filter_cons_True by done. simpl.
        rewrite <- !app_assoc. simpl. do 2 f_equal. lia.
      * constructor; [|done]. intros Hnone.
        apply contains_true in Hq as [q Hq]. congruence.
    + apply contains_false in Hq as Hnone.
      rewrite (process_scenario_no_query self account_id scenario
                 enriched_data w Hnone).
      edestruct IH as (new & -> & Hnew).
      eexists (_ :: new). split.
      * rewrite filter_cons_False by (by rewrite Hq). simpl.
        rewrite <- !app_assoc. simpl. do 2 f_equal. lia.
      * constructor; [|done]. intros _. by eexists.
Qed.

End LoopFacts.

(** ** Rows that are not scenarios *)

(** X3. A row without [scenario_type] stops the run: the progress line of
    the loop reads the key outside the [try].  When the rows before it all
    have the key, [collect_ai_responses] raises [KeyError('scenario_type')]
    after having processed those rows (their queries were sent and the
    clock was read for each), and the records made so far are not written:
    no file changes. *)
Theorem collect_aborts_without_scenario_type env path url account_id w
    (good : list dict) (bad : dict) (rest : list dict) :
  fs w !! path = Some (good ++ bad :: rest) →
  (health_check env (client_aenter (client_init url)) w).1 = Return true →
  Forall (λ s, Dict.contains s "scenario_type" = true) good →
  Dict.get bad "scenario_type" = None →
  let self := client_aenter (client_init url) in
  ∃ w',
    Collector.collect_ai_responses env path url account_id w
    = (Raise (mkExc ["KeyError"; "LookupError"] "'scenario_type'"), w')
    ∧ fs w' = fs w
    ∧ http_log w'
      = http_log w
        ++ health_request self
           :: (Run.request_of self account_id
               <$> filter (λ s, Dict.contains s "query" = true) good)
    ∧ clock_reads w' = (clock_reads w + length good)%nat.
Proof.
  intros Hfile Hhealth Hgood Hbad self.
  rewrite (collect_healthy env path url account_id w _ Hfile Hhealth).
  rewrite collect_loop_app.
  destruct (collect_loop_any env self account_id good (client_session_open url)
              Hgood []
              (mkWorld (fs w) (http_log w ++ [health_request self]) (clock_reads w)))
    as (new & Hrun & _).
  fold self. rewrite Hrun. simpl. unfold bind at 1. unfold lift at 1, getitem.
  rewrite Hbad. eexists. split; [reflexivity|]. simpl.
  split; [done|]. split; [|done]. by rewrite <- app_assoc.
Qed.

Lemma collect_aborts_without_scenario_type_witness :
  let self := client_aenter (client_init Sample.api_base_url) in
  ∃ w',
    Collector.collect_ai_responses Sample.all_good Sample.dataset_file
      Sample.api_base_url 1 Sample2.world_untyped
    = (Raise (mkExc ["KeyError"; "LookupError"] "'scenario_type'"), w')
    ∧ fs w' = fs Sample2.world_untyped
    ∧ http_log w'
      = http_log Sample2.world_untyped
        ++ health_request self
           :: (Run.request_of self 1
               <$> filter (λ s, Dict.contains s "query" = true) Sample.three_rows)
    ∧ clock_reads w'
      = (clock_reads Sample2.world_untyped + length Sample.three_rows)%nat.
Proof.
  apply (collect_aborts_without_scenario_type Sample.all_good
           Sample.dataset_file Sample.api_base_url 1 Sample2.world_untyped
           Sample.three_rows Sample2.untyped_row []).
  - vm_compute. reflexivity.
  - vm_compute. reflexivity.
  - repeat constructor.
  - reflexivity.
Defined.

(** X4. A row without [query] costs no request.  In a run on rows that all
    have a [scenario_type], after a health check that says [True], the
    queries sent are those of the rows that have a [query], in order, one
    each; the clock is read once per row; and the record of a row without
    [query] has the error ['query'] (the text of the [KeyError]) and the
    response [Error: 'query']. *)
Theorem collect_row_without_query env path url account_id w
    (test_data : list dict) :
  fs w !! path = Some test_data →
  (health_check env (client_aenter (client_init url)) w).1 = Return true →
  Forall (λ s, Dict.contains s "scenario_type" = true) test_data →
  let self := client_aenter (client_init url) in
  ∃ (enriched : list dict) w',
    Collector.collect_ai_responses env path url account_id w
    = (Return (Collector.enriched_file_of path), w')
    ∧ fs w' = <[Collector.enriched_file_of path := enriched]> (fs w)
    ∧ http_log w'
      = http_log w
        ++ health_request self
           :: (Run.request_of self account_id
               <$> filter (λ s, Dict.contains s "query" = true) test_data)
    ∧ clock_reads w' = (clock_reads w + length test_data)%nat
    ∧ ∀ i scenario,
        test_data !! i = Some scenario →
        Dict.get scenario "query" = None →
        ∃ record,
          enriched !! i = Some record
          ∧ Dict.get record "error" = Some (JStr "'query'")
          ∧ Dict.get record "response" = Some (JStr "Error: 'query'")
          ∧ Dict.get record "tool_calls" = Some (JList []).
Proof.
  intros Hfile Hhealth Hs self.
  rewrite (collect_healthy env path url account_id w _ Hfile Hhealth).
  destruct (collect_loop_any env self account_id test_data
              (client_session_open url) Hs []
              (mkWorld (fs w) (http_log w ++ [health_request self]) (clock_reads w)))
    as (new & Hrun & Hnew).
  fold self. rewrite Hrun. simpl.
  eexists _, _. split; [reflexivity|]. simpl.
  split; [done|]. split; [by rewrite <- app_assoc|]. split; [done|].
  intros i scenario Hi Hq.
  destruct (Forall2_lookup_l _ _ _ _ _ Hnew Hi) as (record & Hrec & Hrow).
  destruct (Hrow Hq) as [timestamp ->].
  exists (Collector.enrich_error scenario (KeyError "query") timestamp).
  split; [done|].
  by rewrite error_error, error_response, error_tool_calls.
Qed.

Lemma collect_row_without_query_witness :
  let self := client_aenter (client_init Sample.api_base_url) in
  ∃ (enriched : list dict) w',
    Collector.collect_ai_responses Sample.all_good Sample.dataset_file
      Sample.api_base_url 1 Sample2.world_mute
    = (Return (Collector.enriched_file_of Sample.dataset_file), w')
    ∧ fs w' = <[Collector.enriched_file_of Sample.dataset_file := enriched]>
                (fs Sample2.world_mute)
    ∧ http_log w'
      = http_log Sample2.world_mute
        ++ health_request self
           :: (Run.request_of self 1
               <$> filter (λ s, Dict.contains s "query" = true)
                     [Sample2.mute_row])
    ∧ clock_reads w'
      = (clock_reads Sample2.world_mute + length [Sample2.mute_row])%nat
    ∧ ∀ i scenario,
        [Sample2.mute_row] !! i = Some scenario →
        Dict.get scenario "query" = None →
        ∃ record,
          enriched !! i = Some record
          ∧ Dict.get record "error" = Some (JStr "'query'")
          ∧ Dict.get record "response" = Some (JStr "Error: 'query'")
          ∧ Dict.get record "tool_calls" = Some (JList []).
Proof.
  apply (collect_row_without_query Sample.all_good Sample.dataset_file
           Sample.api_base_url 1 Sample2.world_mute [Sample2.mute_row]).
  - vm_compute. reflexivity.
  - vm_compute. reflexivity.
  - repeat constructor.
Defined.

(** ** Rows that have been through the collector before *)

(** X5. The success branch never removes an [error].  In a run on
    scenarios after a health check that says [True], when a row already
    has an [error] (it is a record of an earlier run) and its call returns
    a dictionary, the record gets the new response and payload and keeps
    the old [error]: it still looks like a failure to whoever tells
    failures by that key. *)
Theorem old_error_survives_success env path url account_id w
    (test_data : list dict) :
  fs w !! path = Some test_data →
  (health_check env (client_aenter (client_init url)) w).1 = Return true →
  Forall (λ s, Run.is_scenario s = true) test_data →
  let self := client_aenter (client_init url) in
  ∃ (enriched : list dict) w',
    Collector.collect_ai_responses env path url account_id w
    = (Return (Collector.enriched_file_of path), w')
    ∧ fs w' = <[Collector.enriched_file_of path := enriched]> (fs w)
    ∧ ∀ i scenario old api_response,
        test_data !! i = Some scenario →
        Dict.get scenario "error" = Some old →
        Run.query_result_at env self (S (length (http_log w)) + i)
          (Run.query_of scenario) account_id None
        = Return (JDict api_response) →
        ∃ record,
          enriched !! i = Some record
          ∧ Dict.get record "error" = Some old
          ∧ Dict.get record "response"
            = Some (Dict.get_default api_response "response" (JStr "No response"))
          ∧ Dict.get record "api_response_full" = Some (JDict api_response).
Proof.
  intros Hfile Hhealth Hs self.
  rewrite (collect_scenarios env path url account_id w test_data Hfile Hhealth Hs).
  eexists _, _. split; [reflexivity|]. split; [done|].
  intros i scenario old api_response Hi Hold Hres. eexists. split.
  { rewrite list_lookup_imap, Hi. reflexivity. }
  unfold Run.record_at. fold self. rewrite Hres. simpl.
  by rewrite success_error, success_response, success_api_response_full.
Qed.

Lemma old_error_survives_success_witness :
  let self := client_aenter (client_init Sample.api_base_url) in
  ∃ (enriched : list dict) w',
    Collector.collect_ai_responses Sample.all_good Sample.dataset_file
      Sample.api_base_url 1 Sample3.world_retry
    = (Return (Collector.enriched_file_of Sample.dataset_file), w')
    ∧ fs w' = <[Collector.enriched_file_of Sample.dataset_file := enriched]>
                (fs Sample3.world_retry)
    ∧ ∀ i scenario old api_response,
        [Sample3.failed_before] !! i = Some scenario →
        Dict.get scenario "error" = Some old →
        Run.query_result_at Sample.all_good self
          (S (length (http_log Sample3.world_retry)) + i)
          (Run.query_of scenario) 1 None
        = Return (JDict api_response) →
        ∃ record,
          enriched !! i = Some record
          ∧ Dict.get record "error" = Some old
          ∧ Dict.get record "response"
            = Some (Dict.get_default api_response "response" (JStr "No response"))
          ∧ Dict.get record "api_response_full" = Some (JDict api_response).
Proof.
  apply (old_error_survives_success Sample.all_good Sample.dataset_file
           Sample.api_base_url 1 Sample3.world_retry [Sample3.failed_before]).
  - vm_compute. reflexivity.
  - vm_compute. reflexivity.
  - repeat constructor.
Defined.

(** ** The shape of a record *)

Lemma get_app (d1 d2 : dict) k :
  Dict.get (d1 ++ d2) k
  = match Dict.get d1 k with Some v => Some v | None => Dict.get d2 k end.
Proof.
  induction d1 as [|[k' v'] d1 IH]; simpl; [done|].
  by destruct (String.eqb k' k).
Qed.

Lemma set_fresh_app (d items : dict) k v :
  Dict.get d k = None → Dict.get items k = None →
  Dict.set (d ++ items) k v = d ++ items ++ [(k, v)].
Proof.
  intros Hd Hitems. rewrite set_fresh; [by rewrite <- app_assoc|].
  by rewrite get_app, Hd.
Qed.

(** X6. Enriching a row that has none of the keys [response],
    [tool_calls], [api_response_full], [timestamp] and [error] appends to
    it: the record is the row, item for item and in the same order,
    followed by [response], [tool_calls], [api_response_full] and
    [timestamp] when the call succeeded, and by [response], [tool_calls],
    [error] and [timestamp] when it failed. *)
Theorem enrichment_appends (scenario : dict) :
  Forall (λ k, Dict.get scenario k = None) Run.enrichment_keys →
  (∀ api_response timestamp,
     Collector.enrich_success scenario api_response timestamp
     = scenario
       ++ [("response",
            Dict.get_default api_response "response" (JStr "No response"));
           ("tool_calls", JList []);
           ("api_response_full", JDict api_response);
           ("timestamp", JStr timestamp)])
  ∧ (∀ ex timestamp,
       Collector.enrich_error scenario ex timestamp
       = scenario
         ++ [("response", JStr ("Error: " +:+ exc_str ex));
             ("tool_calls", JList []);
             ("error", JStr (exc_str ex));
             ("timestamp", JStr timestamp)]).
Proof.
  unfold Run.enrichment_keys. rewrite !Forall_cons.
  intros (Hr & Htc & Hfull & Hts & Herr & _). split.
  - intros api_response timestamp.
    unfold Collector.enrich_success, Dict.copy.
    rewrite (set_fresh scenario "response") by done.
    rewrite (set_fresh_app scenario _ "tool_calls") by done.
    rewrite (set_fresh_app scenario _ "api_response_full") by done.
    by rewrite (set_fresh_app scenario _ "timestamp") by done.
  - intros ex timestamp.
    unfold Collector.enrich_error, Dict.copy.
    rewrite (set_fresh scenario "response") by done.
    rewrite (set_fresh_app scenario _ "tool_calls") by done.
    rewrite (set_fresh_app scenario _ "error") by done.
    by rewrite (set_fresh_app scenario _ "timestamp") by done.
Qed.

Lemma enrichment_appends_witness :
  Collector.enrich_error Sample2.mute_row Sample.connection_refused (Sample.clock 0)
  = Sample2.mute_row
    ++ [("response", JStr ("Error: " +:+ exc_str Sample.connection_refused));
        ("tool_calls", JList []);
        ("error", JStr (exc_str Sample.connection_refused));
        ("timestamp", JStr (Sample.clock 0))].
Proof.
  apply (proj2 (enrichment_appends Sample2.mute_row
                  ltac:(repeat constructor))).
Defined.

(** ** The name of the enriched file *)

Section ReplaceFacts.

Lemma prefix_app (old s : string) :
  String.prefix old s = true → ∃ post, s = old +:+ post.
Proof.
  revert s. induction old as [|a old IH]; intros s H.
  - by exists s.
  - destruct s as [|b s]; [done|]. simpl in H.
    destruct (Ascii.ascii_dec a b) as [->|]; [|done].
    destruct (IH s H) as [post ->]. by exists post.
Qed.

Lemma prefix_cons a b (s1 s2 : string) :
  String.prefix (String a s1) (String b s2)
  = if Ascii.ascii_dec a b then String.prefix s1 s2 else false.
Proof. done. Qed.

(** Where [old] does not occur there is nothing to replace. *)
Lemma replace_absent (old new s : string) :
  (∀ pre post, s ≠ pre +:+ old +:+ post) →
  PyStr.replace s old new = s.
Proof.
  unfold PyStr.replace. induction s as [|a s IH]; intros Hno; [done|].
  cbn [PyStr.replace_from].
  destruct (String.prefix old (String a s)) eqn:Hp.
  - destruct (prefix_app _ _ Hp) as [post Hpost].
    by destruct (Hno EmptyString post).
  - f_equal. apply IH. intros pre post ->.
    by apply (Hno (String a pre) post).
Qed.

(** A stem in which [".jsonl"] does not occur cannot make it occur across
    the seam with the suffix: the pattern has its only dot in front. *)
(** A prefix of [s +:+ t] lies within [s] or runs over its end. *)
Lemma prefix_of_app (p s t : string) :
  String.prefix p (s +:+ t) = true →
  String.prefix p s = true
  ∨ ∃ p', p = s +:+ p' ∧ String.prefix p' t = true.
Proof.
  revert p. induction s as [|a s IH]; intros p H.
  - right. by exists p.
  - destruct p as [|b p]; [by left|].
    change (String a s +:+ t) with (String a (s +:+ t)) in H.
    rewrite prefix_cons in H |- *.
    destruct (Ascii.ascii_dec b a) as [->|]; [|done].
    destruct (IH p H) as [Hin|(p' & -> & Hp')]; [by left|].
    right. by exists p'.
Qed.

Lemma prefix_across_seam (stem : string) :
  String.prefix ".jsonl" (stem +:+ ".jsonl") = true →
  stem = EmptyString ∨ String.prefix ".jsonl" stem = true.
Proof.
  intros [Hin|(p' & Heq & Hp')]%prefix_of_app; [by right|].
  destruct stem as [|a1 stem]; [by left|right].
  change (String a1 stem +:+ p') with (String a1 (stem +:+ p')) in Heq.
  injection Heq as <- Heq.
  do 5 (let a := fresh "a" in
        destruct stem as [|a stem];
        [change (EmptyString +:+ p') with p' in Heq; subst p';
         by vm_compute in Hp'|];
        change (String a stem +:+ p') with (String a (stem +:+ p')) in Heq;
        injection Heq as <- Heq).
  destruct stem as [|a stem]; [done|].
  by change (String a stem +:+ p') with (String a (stem +:+ p')) in Heq.
Qed.

Lemma replace_suffix (stem : string) :
  (∀ pre post, stem ≠ pre +:+ ".jsonl" +:+ post) →
  PyStr.replace (stem +:+ ".jsonl") ".jsonl" "_with_responses.jsonl"
  = stem +:+ "_with_responses.jsonl".
Proof.
  unfold PyStr.replace. induction stem as [|a stem IH]; intros Hno; [done|].
  change (String a stem +:+ ".jsonl") with (String a (stem +:+ ".jsonl")).
  cbn [PyStr.replace_from].
  destruct (String.prefix ".jsonl" (String a (stem +:+ ".jsonl"))) eqn:Hp.
  - destruct (prefix_across_seam (String a stem) Hp) as [|Hp']; [done|].
    destruct (prefix_app _ _ Hp') as [post Hpost].
    by destruct (Hno EmptyString post).
  - change (String a stem +:+ "_with_responses.jsonl")
      with (String a (stem +:+ "_with_responses.jsonl")).
    f_equal. apply IH. intros pre post ->.
    by apply (Hno (String a pre) post).
Qed.

Lemma append_cancel_l (s t1 t2 : string) : s +:+ t1 = s +:+ t2 → t1 = t2.
Proof.
  induction s as [|a s IH]; [done|].
  change (String a s +:+ t1) with (String a (s +:+ t1)).
  change (String a s +:+ t2) with (String a (s +:+ t2)).
  intros [= H]. by apply IH.
Qed.

Lemma prefix_append (old post : string) : String.prefix old (old +:+ post) = true.
Proof.
  induction old as [|a old IH]; [by destruct post|].
  change (String a old +:+ post) with (String a (old +:+ post)).
  rewrite prefix_cons. by destruct (Ascii.ascii_dec a a).
Qed.

Lemma occurs_prefix (old s : string) :
  String.prefix old s = true → Text.occurs old s = true.
Proof. destruct s; simpl; by intros ->. Qed.

Lemma occurs_false (old s : string) :
  Text.occurs old s = false → ∀ pre post, s ≠ pre +:+ old +:+ post.
Proof.
  intros H pre. revert s H. induction pre as [|a pre IH]; intros s H post ->.
  - change (EmptyString +:+ old +:+ post) with (old +:+ post) in H.
    by rewrite (occurs_prefix _ _ (prefix_append old post)) in H.
  - change (String a pre +:+ old +:+ post)
      with (String a (pre +:+ old +:+ post)) in H.
    simpl in H. apply orb_false_iff in H as [_ H].
    by apply (IH _ H post).
Qed.

End ReplaceFacts.

(** X7. The enriched file of [<stem>.jsonl] is [<stem>_with_responses.jsonl]
    when [".jsonl"] does not occur in the stem; it is then another file
    than the dataset, which a run leaves as it was. *)
Theorem enriched_file_beside_dataset env stem url account_id w
    (test_data : list dict) :
  Text.occurs ".jsonl" stem = false →
  fs w !! (stem +:+ ".jsonl") = Some test_data →
  (health_check env (client_aenter (client_init url)) w).1 = Return true →
  Forall (λ s, Dict.contains s "scenario_type" = true) test_data →
  ∃ (enriched : list dict) w',
    Collector.collect_ai_responses env (stem +:+ ".jsonl") url account_id w
    = (Return (stem +:+ "_with_responses.jsonl"), w')
    ∧ fs w' !! (stem +:+ "_with_responses.jsonl") = Some enriched
    ∧ length enriched = length test_data
    ∧ fs w' !! (stem +:+ ".jsonl") = Some test_data.
Proof.
  intros Hocc Hfile Hhealth Hs. pose proof (occurs_false _ _ Hocc) as Hno.
  rewrite (collect_healthy env _ url account_id w test_data Hfile Hhealth).
  destruct (collect_loop_total env (client_aenter (client_init url)) account_id
              test_data Hs []
              (mkWorld (fs w)
                 (http_log w ++ [health_request (client_aenter (client_init url))])
                 (clock_reads w)))
    as (enriched & w1 & -> & Hfs & Hall).
  unfold Collector.enriched_file_of. rewrite (replace_suffix stem Hno).
  eexists enriched, _. split; [reflexivity|]. simpl. rewrite Hfs. simpl.
  split; [by rewrite lookup_insert_eq|].
  split; [symmetry; by eapply Forall2_length|].
  rewrite lookup_insert_ne; [done|].
  by intros Heq%append_cancel_l.
Qed.

Lemma enriched_file_beside_dataset_witness :
  ∃ (enriched : list dict) w',
    Collector.collect_ai_responses Sample.all_good
      ("portfolio_test_dataset" +:+ ".jsonl") Sample.api_base_url 1 Sample.world3
    = (Return ("portfolio_test_dataset" +:+ "_with_responses.jsonl"), w')
    ∧ fs w' !! ("portfolio_test_dataset" +:+ "_with_responses.jsonl")
      = Some enriched
    ∧ length enriched = length Sample.three_rows
    ∧ fs w' !! ("portfolio_test_dataset" +:+ ".jsonl") = Some Sample.three_rows.
Proof.
  apply (enriched_file_beside_dataset Sample.all_good "portfolio_test_dataset"
           Sample.api_base_url 1 Sample.world3 Sample.three_rows).
  - reflexivity.
  - vm_compute. reflexivity.
  - vm_compute. reflexivity.
  - repeat constructor.
Defined.

(** X8. When [".jsonl"] does not occur in the name of the dataset file,
    the enriched file is the dataset file itself: a run writes the records
    over the rows it has read. *)
Theorem collect_overwrites_dataset_without_suffix env path url account_id w
    (test_data : list dict) :
  Text.occurs ".jsonl" path = false →
  fs w !! path = Some test_data →
  (health_check env (client_aenter (client_init url)) w).1 = Return true →
  Forall (λ s, Dict.contains s "scenario_type" = true) test_data →
  ∃ (enriched : list dict) w',
    Collector.collect_ai_responses env path url account_id w = (Return path, w')
    ∧ fs w' !! path = Some enriched
    ∧ Forall2 Run.enrichment_of test_data enriched
    ∧ ∀ other, other ≠ path → fs w' !! other = fs w !! other.
Proof.
  intros Hocc Hfile Hhealth Hs. pose proof (occurs_false _ _ Hocc) as Hno.
  rewrite (collect_healthy env _ url account_id w test_data Hfile Hhealth).
  destruct (collect_loop_total env (client_aenter (client_init url)) account_id
              test_data Hs []
              (mkWorld (fs w)
                 (http_log w ++ [health_request (client_aenter (client_init url))])
                 (clock_reads w)))
    as (enriched & w1 & -> & Hfs & Hall).
  unfold Collector.enriched_file_of.
  rewrite (replace_absent ".jsonl" "_with_responses.jsonl" path Hno).
  eexists enriched, _. split; [reflexivity|]. simpl. rewrite Hfs. simpl.
  split; [by rewrite lookup_insert_eq|]. split; [done|].
  intros other Hne. by rewrite lookup_insert_ne.
Qed.

Lemma collect_overwrites_dataset_without_suffix_witness :
  ∃ (enriched : list dict) w',
    Collector.collect_ai_responses Sample.all_good "dataset.json"
      Sample.api_base_url 1
      (mkWorld {[ "dataset.json" := Sample.three_rows ]} [] 0)
    = (Return "dataset.json", w')
    ∧ fs w' !! "dataset.json" = Some enriched
    ∧ Forall2 Run.enrichment_of Sample.three_rows enriched
    ∧ ∀ other, other ≠ "dataset.json" →
               fs w' !! other
               = fs (mkWorld {[ "dataset.json" := Sample.three_rows ]} [] 0)
                 !! other.
Proof.
  apply (collect_overwrites_dataset_without_suffix Sample.all_good
           "dataset.json" Sample.api_base_url 1
           (mkWorld {[ "dataset.json" := Sample.three_rows ]} [] 0)
           Sample.three_rows).
  - reflexivity.
  - vm_compute. reflexivity.
  - vm_compute. reflexivity.
  - repeat constructor.
Defined.

(** ** The base address of the client *)

Section RstripFacts.

Lemma rstrip_cons chars a (s : string) :
  PyStr.rstrip chars (String a s)
  = match PyStr.rstrip chars s with
    | EmptyString => if PyStr.mem a chars then EmptyString else String a EmptyString
    | r => String a r
    end.
Proof. done. Qed.

(** One more stripped character at the end changes nothing. *)
Lemma rstrip_app_stripped chars c (s : string) :
  PyStr.mem c chars = true →
  PyStr.rstrip chars (s +:+ String c EmptyString) = PyStr.rstrip chars s.
Proof.
  intros Hc. induction s as [|a s IH].
  - change (EmptyString +:+ String c EmptyString) with (String c EmptyString).
    rewrite rstrip_cons. simpl. by rewrite Hc.
  - change (String a s +:+ String c EmptyString)
      with (String a (s +:+ String c EmptyString)).
    by rewrite !rstrip_cons, IH.
Qed.

(** What is left does not end in a stripped character. *)
Lemma rstrip_end chars c (s t : string) :
  PyStr.mem c chars = true →
  PyStr.rstrip chars s ≠ t +:+ String c EmptyString.
Proof.
  intros Hc. revert t. induction s as [|a s IH]; intros t.
  - by destruct t.
  - rewrite rstrip_cons. destruct (PyStr.rstrip chars s) as [|b r] eqn:Hr.
    + destruct (PyStr.mem a chars) eqn:Ha; [by destruct t|].
      destruct t as [|b [|? ?]]; try done.
      change (EmptyString +:+ String c EmptyString) with (String c EmptyString).
      intros [= ->]. congruence.
    + destruct t as [|b' t].
      * change (EmptyString +:+ String c EmptyString) with (String c EmptyString).
        done.
      * change (String b' t +:+ String c EmptyString)
          with (String b' (t +:+ String c EmptyString)).
        intros [= -> H]. by apply (IH t).
Qed.

(** A string that ends in a character that is not stripped is left
    whole. *)
Lemma rstrip_app_kept chars c (s : string) :
  PyStr.mem c chars = false →
  PyStr.rstrip chars (s +:+ String c EmptyString) = s +:+ String c EmptyString.
Proof.
  intros Hc. induction s as [|a s IH].
  - change (EmptyString +:+ String c EmptyString) with (String c EmptyString).
    rewrite rstrip_cons. simpl. by rewrite Hc.
  - change (String a s +:+ String c EmptyString)
      with (String a (s +:+ String c EmptyString)).
    rewrite rstrip_cons, IH. by destruct s.
Qed.

End RstripFacts.

(** X9. Slashes at the end of the address the client is made with do not
    count: one more slash gives the same client, hence the same requests;
    the base address kept never ends in a slash; and an address that ends
    in another character is kept as it is. *)
Theorem client_ignores_trailing_slashes (url : string) :
  client_init (url +:+ "/") = client_init url
  ∧ (∀ t, base_url (client_init url) ≠ t +:+ "/")
  ∧ (∀ c, PyStr.mem c "/" = false →
          base_url (client_init (url +:+ String c EmptyString))
          = url +:+ String c EmptyString)
  ∧ health_request (client_aenter (client_init (url +:+ "/")))
    = health_request (client_aenter (client_init url))
  ∧ ∀ query account_id thread_id,
      chat_query_request (client_aenter (client_init (url +:+ "/")))
        query account_id thread_id
      = chat_query_request (client_aenter (client_init url))
          query account_id thread_id.
Proof.
  assert (client_init (url +:+ "/") = client_init url) as Hsame.
  { unfold client_init. by rewrite (rstrip_app_stripped "/"). }
  split; [done|]. split; [|split; [|split]].
  - intros t. by apply (rstrip_end "/").
  - intros c Hc. by apply rstrip_app_kept.
  - by rewrite Hsame.
  - intros. by rewrite Hsame.
Qed.

Lemma client_ignores_trailing_slashes_witness :
  base_url (client_init ("http://localhost:500"
                         +:+ String (Ascii.ascii_of_nat 48) EmptyString))
  = "http://localhost:5000".
Proof.
  apply (client_ignores_trailing_slashes "http://localhost:500").
  reflexivity.
Defined.

(** ** From the builder to the collector, as [main] chains them *)

Section PipelineFacts.

Lemma fmap_Return_inj {A} (l1 l2 : list A) :
  Return <$> l1 = Return <$> l2 → l1 = l2.
Proof.
  revert l2. induction l1 as [|x l1 IH]; intros [|y l2] H; try done.
  injection H as -> H. by rewrite (IH l2).
Qed.

(** The rows of the built dataset, spelled out. *)
Lemma built_rows_eq (rows : list dict) :
  Return <$> rows = Row.rows_of Dataset.tool_definitions 0 Dataset.test_scenarios →
  rows = (λ r, match r with Return row => row | Raise _ => [] end)
         <$> Row.rows_of Dataset.tool_definitions 0 Dataset.test_scenarios.
Proof.
  intros H. apply fmap_Return_inj. rewrite H. vm_compute. reflexivity.
Qed.

(** A record has the identifier of its row. *)
Lemma record_keeps_id env self account_id n k (scenario : dict) :
  Row.id_of (Run.record_at env self account_id n k scenario) = Row.id_of scenario.
Proof.
  unfold Row.id_of, Run.record_at, Run.record_for.
  destruct (Run.query_result_at _ _ _ _ _ _) as [api_response|ex];
    [destruct (Collector.get_method api_response)|];
    unfold Collector.enrich_success, Collector.enrich_error, Dict.copy;
    by dict_simpl.
Qed.

Lemma record_has_response env self account_id n k (scenario : dict) :
  Dict.contains (Run.record_at env self account_id n k scenario) "response" = true.
Proof.
  unfold Dict.contains, Run.record_at, Run.record_for.
  destruct (Run.query_result_at _ _ _ _ _ _) as [api_response|ex];
    [destruct (Collector.get_method api_response)|];
    by rewrite ?success_response, ?error_response.
Qed.

(** The requests depend on the rows through their queries only. *)
Lemma request_of_queries self account_id (l1 l2 : list dict) :
  Run.query_of <$> l1 = Run.query_of <$> l2 →
  Run.request_of self account_id <$> l1 = Run.request_of self account_id <$> l2.
Proof.
  revert l2. induction l1 as [|x l1 IH]; intros [|y l2] H; try done.
  injection H as Hq H. rewrite !fmap_cons, (IH l2 H).
  unfold Run.request_of. by rewrite Hq.
Qed.

End PipelineFacts.

(** The builder followed by the collector on the file just built. *)
Lemma built_dataset_collected env output_file url account_id w :
  (health_check env (client_aenter (client_init url)) w).1 = Return true →
  let self := client_aenter (client_init url) in
  ∃ (rows enriched : list dict) w1 w',
    Dataset.create_test_dataset output_file w = (Return output_file, w1)
    ∧ fs w1 = <[output_file := rows]> (fs w)
    ∧ Return <$> rows
      = Row.rows_of Dataset.tool_definitions 0 Dataset.test_scenarios
    ∧ Collector.collect_ai_responses env output_file url account_id w1
      = (Return (Collector.enriched_file_of output_file), w')
    ∧ fs w' = <[Collector.enriched_file_of output_file := enriched]> (fs w1)
    ∧ http_log w'
      = http_log w
        ++ health_request self
           :: (Run.request_of self account_id <$> Dataset.test_scenarios)
    ∧ Row.id_of <$> enriched
      = Some <$> ["test_01"; "test_02"; "test_03"; "test_04"; "test_05";
                  "test_06"; "test_07"; "test_08"; "test_09"; "test_10";
                  "test_11"]
    ∧ Forall (λ record, Dict.contains record "response" = true) enriched.
Proof.
  intros Hhealth self.
  destruct (write_dataset_rows output_file Dataset.tool_definitions
              Dataset.test_scenarios w test_scenarios_labelled)
    as (rows & Hrun & Hrows).
  set (w1 := set_fs (λ f, <[output_file := rows]> f) w).
  assert (Dataset.create_test_dataset output_file w = (Return output_file, w1))
    as Hcreate.
  { unfold Dataset.create_test_dataset. py_unfold. by rewrite Hrun. }
  assert (fs w1 !! output_file = Some rows) as Hfile
    by (simpl; by rewrite lookup_insert_eq).
  assert ((health_check env self w1).1 = Return true) as Hhealth1.
  { rewrite health_check_open in Hhealth |- * by done. done. }
  assert (Forall (λ s, Run.is_scenario s = true) rows) as Hs.
  { eapply Forall_impl; [by apply built_rows_fresh|]. intros s H.
    unfold Run.is_fresh_scenario in H. by apply andb_true_iff in H as [? _]. }
  exists rows. eexists _, w1, _. split; [done|]. split; [done|].
  split; [done|]. split.
  { apply (collect_scenarios env output_file url account_id w1 rows
             Hfile Hhealth1 Hs). }
  simpl. split; [done|]. split; [|split].
  - do 2 f_equal.
    apply (request_of_queries self account_id rows Dataset.test_scenarios).
    rewrite (built_rows_eq rows Hrows). vm_compute. reflexivity.
  - rewrite fmap_imap.
    rewrite (imap_ext _ (const Row.id_of)).
    + rewrite imap_const, (built_rows_ids rows Hrows). vm_compute. reflexivity.
    + intros i s _. apply record_keeps_id.
  - apply Forall_lookup. intros i record Hi.
    rewrite list_lookup_imap in Hi.
    destruct (rows !! i) as [s|]; [|done]. simpl in Hi. injection Hi as <-.
    apply record_has_response.
Qed.

(** X10. Building the dataset and collecting on the file just built, as
    [main] does, goes through whenever the health check says [True]: the
    collector accepts every row the builder writes.  The queries posted are
    those of the eleven scenarios, in order, after the health check; the
    enriched file holds eleven records with the identifiers [test_01] to
    [test_11] in order, each with a [response]. *)
Theorem build_then_collect env output_file url account_id w :
  (health_check env (client_aenter (client_init url)) w).1 = Return true →
  let self := client_aenter (client_init url) in
  ∃ (rows enriched : list dict) w1 w',
    Dataset.create_test_dataset output_file w = (Return output_file, w1)
    ∧ fs w1 !! output_file = Some rows
    ∧ Collector.collect_ai_responses env output_file url account_id w1
      = (Return (Collector.enriched_file_of output_file), w')
    ∧ fs w' !! Collector.enriched_file_of output_file = Some enriched
    ∧ http_log w'
      = http_log w
        ++ health_request self
           :: (Run.request_of self account_id <$> Dataset.test_scenarios)
    ∧ Row.id_of <$> enriched
      = Some <$> ["test_01"; "test_02"; "test_03"; "test_04"; "test_05";
                  "test_06"; "test_07"; "test_08"; "test_09"; "test_10";
                  "test_11"]
    ∧ Forall (λ record, Dict.contains record "response" = true) enriched.
Proof.
  intros Hhealth self.
  destruct (built_dataset_collected env output_file url account_id w Hhealth)
    as (rows & enriched & w1 & w' & Hcreate & Hfs1 & _ & Hcollect & Hfs
        & Hlog & Hids & Hresp).
  exists rows, enriched, w1, w'. split; [done|].
  split; [by rewrite Hfs1, lookup_insert_eq|]. split; [done|].
  split; [by rewrite Hfs, lookup_insert_eq|]. done.
Qed.

Lemma build_then_collect_witness :
  let self := client_aenter (client_init Sample.api_base_url) in
  ∃ (rows enriched : list dict) w1 w',
    Dataset.create_test_dataset Sample.dataset_file Sample.world0
    = (Return Sample.dataset_file, w1)
    ∧ fs w1 !! Sample.dataset_file = Some rows
    ∧ Collector.collect_ai_responses (Sample.failing_at [2%nat])
        Sample.dataset_file Sample.api_base_url 1 w1
      = (Return (Collector.enriched_file_of Sample.dataset_file), w')
    ∧ fs w' !! Collector.enriched_file_of Sample.dataset_file = Some enriched
    ∧ http_log w'
      = http_log Sample.world0
        ++ health_request self
           :: (Run.request_of self 1 <$> Dataset.test_scenarios)
    ∧ Row.id_of <$> enriched
      = Some <$> ["test_01"; "test_02"; "test_03"; "test_04"; "test_05";
                  "test_06"; "test_07"; "test_08"; "test_09"; "test_10";
                  "test_11"]
    ∧ Forall (λ record, Dict.contains record "response" = true) enriched.
Proof.
  apply (build_then_collect (Sample.failing_at [2%nat]) Sample.dataset_file
           Sample.api_base_url 1 Sample.world0).
  vm_compute. reflexivity.
Defined.

(** ** The configuration of the evaluator *)

Lemma truthy_resolves arg var value :
  Config.resolves_to arg var value →
  Evaluator.or_else arg var = Some value
  ∧ Evaluator.truthy (Some value) = true.
Proof.
  intros [Hne [->|[[->| ->] ->]]]; unfold Evaluator.or_else;
    by destruct value.
Qed.

Lemma falsy_unresolved arg var :
  Config.unresolved arg var →
  Evaluator.truthy (Evaluator.or_else arg var) = false.
Proof. by intros [[->| ->] [->| ->]]. Qed.

(** X11. How [PortfolioManagerEvaluator(...)] settles its two settings.
    Each one is the argument when that is given and not empty, and else
    the environment variable when that is set and not empty; the SDK is
    then set up with the deployment, the endpoint and the API version
    [2025-04-01-preview].  When one of the two settles to nothing (absent
    or empty on both sides) the constructor raises the [ValueError] that
    asks for the configuration, before the SDK is touched. *)
Theorem init_settles_configuration environ sdk_setup endpoint deployment :
  (∀ e d,
     Config.resolves_to endpoint (environ !! "AZURE_OPENAI_ENDPOINT") e →
     Config.resolves_to deployment (environ !! "AZURE_OPENAI_DEPLOYMENT") d →
     Evaluator.init environ sdk_setup endpoint deployment
     = match sdk_setup [("azure_deployment", JStr d);
                        ("azure_endpoint", JStr e);
                        ("api_version", JStr "2025-04-01-preview")] with
       | Return _ =>
           Return (Evaluator.mkEvaluator e d
                     [("azure_deployment", JStr d);
                      ("azure_endpoint", JStr e);
                      ("api_version", JStr "2025-04-01-preview")])
       | Raise ex => Raise ex
       end)
  ∧ (Config.unresolved endpoint (environ !! "AZURE_OPENAI_ENDPOINT")
     ∨ Config.unresolved deployment (environ !! "AZURE_OPENAI_DEPLOYMENT") →
     Evaluator.init environ sdk_setup endpoint deployment
     = Raise (mkExc ["ValueError"]
                "Azure OpenAI configuration required. Set AZURE_OPENAI_ENDPOINT and AZURE_OPENAI_DEPLOYMENT environment variables or pass them explicitly.")).
Proof.
  split.
  - intros e d [He Hte]%truthy_resolves [Hd Htd]%truthy_resolves.
    unfold Evaluator.init, Evaluator.getenv. rewrite He, Hd, Hte, Htd. done.
  - unfold Evaluator.init, Evaluator.getenv.
    intros [H%falsy_unresolved|H%falsy_unresolved]; rewrite H; [done|].
    by rewrite orb_true_r.
Qed.

Lemma init_settles_configuration_witness :
  Evaluator.init Config.environ Config.sdk_ok None (Some "gpt-4o-mini")
  = Return (Evaluator.mkEvaluator "https://example.openai.azure.com" "gpt-4o-mini"
              [("azure_deployment", JStr "gpt-4o-mini");
               ("azure_endpoint", JStr "https://example.openai.azure.com");
               ("api_version", JStr "2025-04-01-preview")])
  ∧ Evaluator.init ∅ Config.sdk_ok (Some "https://example.openai.azure.com") None
    = Raise (mkExc ["ValueError"]
               "Azure OpenAI configuration required. Set AZURE_OPENAI_ENDPOINT and AZURE_OPENAI_DEPLOYMENT environment variables or pass them explicitly.").
Proof.
  split.
  - apply (proj1 (init_settles_configuration Config.environ Config.sdk_ok
                    None (Some "gpt-4o-mini"))
             "https://example.openai.azure.com" "gpt-4o-mini").
    + split; [discriminate|]. right. split; [by left|]. vm_compute. reflexivity.
    + split; [discriminate|]. by left.
  - apply (proj2 (init_settles_configuration ∅ Config.sdk_ok
                    (Some "https://example.openai.azure.com") None)).
    right. split; [by left|]. left. vm_compute. reflexivity.
Defined.

(** ** [main] *)

Section MainFacts.

Variable environ : gmap string string.
Variable sdk_setup : dict → PyResult unit.
Variable env : Env.
Variable int : string → PyResult Z.
Variable run_evaluation :
  Evaluator.PortfolioManagerEvaluator → string → string → Py json.
Variable analyze_results :
  Evaluator.PortfolioManagerEvaluator → json → Py unit.

(** [main] once the evaluator is made and the account is read: the
    dataset, then the collection on it. *)
Lemma main_after_init evaluator account_id w :
  Evaluator.init environ sdk_setup None None = Return evaluator →
  int (Evaluator.getenv_default environ "TEST_ACCOUNT_ID" "1") = Return account_id →
  Main.main environ sdk_setup env int run_evaluation analyze_results w
  = match Collector.collect_ai_responses env "portfolio_test_dataset.jsonl"
            (Evaluator.getenv_default environ "PORTFOLIO_API_URL"
               "http://localhost:5000")
            account_id
            (Dataset.create_test_dataset "portfolio_test_dataset.jsonl" w).2 with
    | (Return enriched_dataset, w2) =>
        match run_evaluation evaluator enriched_dataset "evaluation_results" w2 with
        | (Return results, w3) =>
            match analyze_results evaluator results w3 with
            | (Return _, w4) => (Return tt, w4)
            | (Raise ex, w4) => (Raise ex, w4)
            end
        | (Raise ex, w3) => (Raise ex, w3)
        end
    | (Raise ex, w2) => (Raise ex, w2)
    end.
Proof.
  intros Hinit Hint. unfold Main.main, try_except, bind at 1.
  unfold lift at 1. rewrite Hinit. unfold bind at 1.
  destruct (write_dataset_rows "portfolio_test_dataset.jsonl"
              Dataset.tool_definitions Dataset.test_scenarios w
              test_scenarios_labelled) as (rows & Hrun & _).
  assert (Dataset.create_test_dataset "portfolio_test_dataset.jsonl" w
          = (Return "portfolio_test_dataset.jsonl",
             set_fs (λ f, <["portfolio_test_dataset.jsonl" := rows]> f) w))
    as -> by (unfold Dataset.create_test_dataset; py_unfold; by rewrite Hrun).
  unfold bind at 1. unfold lift at 1. rewrite Hint. unfold bind at 1.
  simpl. destruct (Collector.collect_ai_responses _ _ _ _ _) as [[file|ex] w2];
    [|done].
  unfold bind at 1. destruct (run_evaluation _ _ _ _) as [[results|ex] w3]; [|done].
  unfold bind at 1. by destruct (analyze_results _ _ _) as [[[]|ex] w4].
Qed.

End MainFacts.

(** X12. Without the Azure configuration in the environment (the endpoint
    or the deployment unset or empty) [main] raises the [ValueError] that
    asks for it and does nothing else: no dataset is written, no request is
    sent, the clock is not read. *)
Theorem main_needs_configuration environ sdk_setup env int run_evaluation
    analyze_results w :
  Evaluator.truthy (environ !! "AZURE_OPENAI_ENDPOINT")
  && Evaluator.truthy (environ !! "AZURE_OPENAI_DEPLOYMENT") = false →
  Main.main environ sdk_setup env int run_evaluation analyze_results w
  = (Raise (mkExc ["ValueError"]
              "Azure OpenAI configuration required. Set AZURE_OPENAI_ENDPOINT and AZURE_OPENAI_DEPLOYMENT environment variables or pass them explicitly."),
     w).
Proof.
  intros H. unfold Main.main, try_except, bind at 1. unfold lift at 1.
  unfold Evaluator.init, Evaluator.or_else, Evaluator.getenv. simpl.
  apply andb_false_iff in H as [-> | ->]; [done|].
  by rewrite orb_true_r.
Qed.

Lemma main_needs_configuration_witness :
  Main.main {[ "AZURE_OPENAI_ENDPOINT" := "https://example.openai.azure.com" ]}
    Config.sdk_ok Sample.all_good Config.int Config.run_evaluation
    Config.analyze_results Sample.world0
  = (Raise (mkExc ["ValueError"]
              "Azure OpenAI configuration required. Set AZURE_OPENAI_ENDPOINT and AZURE_OPENAI_DEPLOYMENT environment variables or pass them explicitly."),
     Sample.world0).
Proof.
  apply (main_needs_configuration
           {[ "AZURE_OPENAI_ENDPOINT" := "https://example.openai.azure.com" ]}
           Config.sdk_ok Sample.all_good Config.int Config.run_evaluation
           Config.analyze_results Sample.world0).
  vm_compute. reflexivity.
Defined.

(** X13. With the evaluator made and the account read, when the health
    check of the service at [PORTFOLIO_API_URL] (or the default address)
    says [False], [main] raises the error that the service is not healthy.
    By then the dataset file has been written anew, with its eleven rows;
    the health check is the only request; no other file is touched, and
    neither [run_evaluation] nor [analyze_results] is reached, whatever
    they would do. *)
Theorem main_stops_when_unhealthy environ sdk_setup env int run_evaluation
    analyze_results evaluator account_id w :
  Evaluator.init environ sdk_setup None None = Return evaluator →
  int (Evaluator.getenv_default environ "TEST_ACCOUNT_ID" "1") = Return account_id →
  let api_url :=
    Evaluator.getenv_default environ "PORTFOLIO_API_URL" "http://localhost:5000" in
  (health_check env (client_aenter (client_init api_url)) w).1 = Return false →
  ∃ (rows : list dict) w',
    Main.main environ sdk_setup env int run_evaluation analyze_results w
    = (Raise (Exception ("Portfolio Manager API at " +:+ api_url
                         +:+ " is not healthy. Please ensure it's running.")),
       w')
    ∧ fs w' = <["portfolio_test_dataset.jsonl" := rows]> (fs w)
    ∧ length rows = 11%nat
    ∧ http_log w'
      = http_log w ++ [health_request (client_aenter (client_init api_url))]
    ∧ clock_reads w' = clock_reads w.
Proof.
  intros Hinit Hint api_url Hhealth.
  rewrite (main_after_init environ sdk_setup env int run_evaluation
             analyze_results evaluator account_id w Hinit Hint).
  destruct (write_dataset_rows "portfolio_test_dataset.jsonl"
              Dataset.tool_definitions Dataset.test_scenarios w
              test_scenarios_labelled) as (rows & Hrun & Hrows).
  assert (Dataset.create_test_dataset "portfolio_test_dataset.jsonl" w
          = (Return "portfolio_test_dataset.jsonl",
             set_fs (λ f, <["portfolio_test_dataset.jsonl" := rows]> f) w))
    as -> by (unfold Dataset.create_test_dataset; py_unfold; by rewrite Hrun).
  fold api_url. simpl.
  rewrite (collect_unhealthy env "portfolio_test_dataset.jsonl" api_url
             account_id _ rows).
  - exists rows. eexists. split; [reflexivity|]. simpl.
    split; [done|]. split; [|done]. by rewrite (rows_of_length _ _ _ Hrows).
  - simpl. by rewrite lookup_insert_eq.
  - rewrite health_check_open in Hhealth |- * by done. done.
Qed.

Lemma main_stops_when_unhealthy_witness :
  ∃ (rows : list dict) w',
    Main.main Config.environ Config.sdk_ok Sample.unreachable Config.int
      Config.run_evaluation Config.analyze_results Sample.world0
    = (Raise (Exception ("Portfolio Manager API at "
                         +:+ Evaluator.getenv_default Config.environ
                               "PORTFOLIO_API_URL" "http://localhost:5000"
                         +:+ " is not healthy. Please ensure it's running.")),
       w')
    ∧ fs w' = <["portfolio_test_dataset.jsonl" := rows]> (fs Sample.world0)
    ∧ length rows = 11%nat
    ∧ http_log w'
      = http_log Sample.world0
        ++ [health_request
              (client_aenter
                 (client_init
                    (Evaluator.getenv_default Config.environ
                       "PORTFOLIO_API_URL" "http://localhost:5000")))]
    ∧ clock_reads w' = clock_reads Sample.world0.
Proof.
  apply (main_stops_when_unhealthy Config.environ Config.sdk_ok
           Sample.unreachable Config.int Config.run_evaluation
           Config.analyze_results
           (Evaluator.mkEvaluator "https://example.openai.azure.com" "gpt-4o"
              (Evaluator.model_configuration "gpt-4o"
                 "https://example.openai.azure.com"))
           1 Sample.world0).
  - vm_compute. reflexivity.
  - vm_compute. reflexivity.
  - vm_compute. reflexivity.
Defined.

(** X14. With the evaluator made and the account read, when the health
    check says [True], [main] hands [run_evaluation] the enriched file
    [portfolio_test_dataset_with_responses.jsonl] and the output directory
    [evaluation_results], in a world where that file holds the eleven
    records [test_01] to [test_11] and the dataset file still holds its
    eleven rows; what [main] returns or raises from there on is what
    [run_evaluation] and then [analyze_results] return or raise. *)
Theorem main_hands_over_enriched_file environ sdk_setup env int run_evaluation
    analyze_results evaluator account_id w :
  Evaluator.init environ sdk_setup None None = Return evaluator →
  int (Evaluator.getenv_default environ "TEST_ACCOUNT_ID" "1") = Return account_id →
  let api_url :=
    Evaluator.getenv_default environ "PORTFOLIO_API_URL" "http://localhost:5000" in
  (health_check env (client_aenter (client_init api_url)) w).1 = Return true →
  ∃ (rows enriched : list dict) w2,
    Main.main environ sdk_setup env int run_evaluation analyze_results w
    = match run_evaluation evaluator
              "portfolio_test_dataset_with_responses.jsonl"
              "evaluation_results" w2 with
      | (Return results, w3) =>
          match analyze_results evaluator results w3 with
          | (Return _, w4) => (Return tt, w4)
          | (Raise ex, w4) => (Raise ex, w4)
          end
      | (Raise ex, w3) => (Raise ex, w3)
      end
    ∧ fs w2 !! "portfolio_test_dataset_with_responses.jsonl" = Some enriched
    ∧ Row.id_of <$> enriched
      = Some <$> ["test_01"; "test_02"; "test_03"; "test_04"; "test_05";
                  "test_06"; "test_07"; "test_08"; "test_09"; "test_10";
                  "test_11"]
    ∧ fs w2 !! "portfolio_test_dataset.jsonl" = Some rows
    ∧ length rows = 11%nat.
Proof.
  intros Hinit Hint api_url Hhealth.
  rewrite (main_after_init environ sdk_setup env int run_evaluation
             analyze_results evaluator account_id w Hinit Hint).
  destruct (built_dataset_collected env "portfolio_test_dataset.jsonl" api_url
              account_id w Hhealth)
    as (rows & enriched & w1 & w2 & Hcreate & Hfs1 & Hrows & Hcollect & Hfs
        & _ & Hids & _).
  fold api_url. rewrite Hcreate. simpl. rewrite Hcollect.
  exists rows, enriched, w2. split; [done|].
  change (Collector.enriched_file_of "portfolio_test_dataset.jsonl")
    with "portfolio_test_dataset_with_responses.jsonl" in Hfs.
  split; [by rewrite Hfs, lookup_insert_eq|]. split; [done|].
  split; [|by rewrite (rows_of_length _ _ _ Hrows)].
  rewrite Hfs, lookup_insert_ne by done. by rewrite Hfs1, lookup_insert_eq.
Qed.

Lemma main_hands_over_enriched_file_witness :
  ∃ (rows enriched : list dict) w2,
    Main.main Config.environ Config.sdk_ok Sample.all_good Config.int
      Config.run_evaluation Config.analyze_results Sample.world0
    = match Config.run_evaluation
              (Evaluator.mkEvaluator "https://example.openai.azure.com" "gpt-4o"
                 (Evaluator.model_configuration "gpt-4o"
                    "https://example.openai.azure.com"))
              "portfolio_test_dataset_with_responses.jsonl"
              "evaluation_results" w2 with
      | (Return results, w3) =>
          match Config.analyze_results
                  (Evaluator.mkEvaluator "https://example.openai.azure.com"
                     "gpt-4o"
                     (Evaluator.model_configuration "gpt-4o"
                        "https://example.openai.azure.com"))
                  results w3 with
          | (Return _, w4) => (Return tt, w4)
          | (Raise ex, w4) => (Raise ex, w4)
          end
      | (Raise ex, w3) => (Raise ex, w3)
      end
    ∧ fs w2 !! "portfolio_test_dataset_with_responses.jsonl" = Some enriched
    ∧ Row.id_of <$> enriched
      = Some <$> ["test_01"; "test_02"; "test_03"; "test_04"; "test_05";
                  "test_06"; "test_07"; "test_08"; "test_09"; "test_10";
                  "test_11"]
    ∧ fs w2 !! "portfolio_test_dataset.jsonl" = Some rows
    ∧ length rows = 11%nat.
Proof.
  apply (main_hands_over_enriched_file Config.environ Config.sdk_ok
           Sample.all_good Config.int Config.run_evaluation
           Config.analyze_results
           (Evaluator.mkEvaluator "https://example.openai.azure.com" "gpt-4o"
              (Evaluator.model_configuration "gpt-4o"
                 "https://example.openai.azure.com"))
           1 Sample.world0).
  - vm_compute. reflexivity.
  - vm_compute. reflexivity.
  - vm_compute. reflexivity.
Defined.
